(** * stocks-pipeline: the ingestion and query handlers

    A shallow embedding of [lambdas/ingestion/handler.py] and
    [lambdas/query/handler.py].

    Conventions of the embedding.
    - A Python float is a binary64 number: the primitive type [float],
      with its subtraction, division, multiplication and comparisons.
      Where Python differs from IEEE 754 it is written out: a division
      by zero raises, [round] goes through the decimal expansion.  The
      seconds passed to [time.sleep] are 1, 2 and 4 and are kept as
      rationals.
    - The outside world (Secrets Manager, the market-data API, DynamoDB,
      the clock) is an explicit argument of every handler, and every call
      the handler makes to it is recorded in a trace.
    - An exception that leaves a function is a value of the sum
      [exn + A]; [try/except] is a [match] on it. *)

From Stdlib Require Import ZArith QArith Qround Qabs Ascii String List.
From Stdlib Require Import Sorted Permutation Lia Lqa Floats.
From stdpp Require Import base option list strings gmap.

Local Set Warnings "-inexact-float".

Local Open Scope string_scope.
Local Open Scope list_scope.
Local Open Scope Z_scope.

(** ** Python values shared by both handlers *)

(** The exceptions the two handlers can meet. *)
Inductive exn :=
| KeyError (key : string)
| ValueError (text : string)
| ClientError (message : string)
| OtherException (message : string)
| ZeroDivisionError.

(** [str(e)]: a [KeyError] prints the repr of its key. *)
Definition str_exn (e : exn) : string :=
  match e with
  | KeyError key => "'" +:+ key +:+ "'"
  | ValueError text => "could not convert string to float: '" +:+ text +:+ "'"
  | ClientError message => message
  | OtherException message => message
  | ZeroDivisionError => "float division by zero"
  end.

(** Round half to even, the rule of Python's [round]. *)
Definition round_half_even (x : Q) : Z :=
  let f := Qfloor x in
  match (x - inject_Z f ?= 1 # 2)%Q with
  | Lt => f
  | Gt => f + 1
  | Eq => if Z.even f then f else f + 1
  end.

(** The number a finite float stands for; none for an infinity or a
    NaN. *)
Definition exact (x : float) : option Q :=
  match Prim2SF x with
  | S754_zero _ => Some 0%Q
  | S754_finite s m e =>
    let v := if 0 <=? e then inject_Z (Z.pos m * 2 ^ e)
             else (Z.pos m # Z.to_pos (2 ^ (- e)))%Q in
    Some (if s then (- v)%Q else v)
  | S754_infinity _ => None
  | S754_nan => None
  end.

(** The float nearest to an integer, ties to even. *)
Definition float_of_Z (z : Z) : float :=
  SF2Prim (binary_normalize prec emax z 0 false).

(** The integer [k] for which [k / 10^ndigits] is the decimal nearest
    to the magnitude of [q], ties to the even [k]. *)
Definition decimal_units (q : Q) (ndigits : nat) : Z :=
  round_half_even (Qabs q * inject_Z (10 ^ Z.of_nat ndigits)).

(** [round(x, ndigits)] for [ndigits] up to 22: the float nearest to the
    decimal with [ndigits] fractional digits nearest to [x], with the
    sign of [x].  The quotient of the two integers below is that float,
    both being floats themselves; from [2^53] units on, [x] is nearer
    to the decimal than any other float.  Infinities and NaN are
    returned as they are. *)
Definition py_round (x : float) (ndigits : nat) : float :=
  match exact x with
  | None => x
  | Some q =>
    let k := decimal_units q ndigits in
    if k <? 2 ^ 53 then
      let r := PrimFloat.div (float_of_Z k)
                 (float_of_Z (10 ^ Z.of_nat ndigits)) in
      if get_sign x then PrimFloat.opp r else r
    else x
  end.

(** ** The movers table

    One DynamoDB table whose partition key is the attribute [date]; an
    item is its key together with the other attributes it carries.  An
    attribute of an item may be missing.  A numeric attribute is kept as
    a text: [Num x] stands for a text that [float] reads as [x], as the
    text [str] makes of the float [x] is, and [NotNum s] for a text on
    which [float] raises. *)
Inductive attr_value :=
| Num (x : float)
| NotNum (text : string).

Record attrs := {
  a_ticker : option string;
  a_percent_change : option attr_value;
  a_closing_price : option attr_value;
  a_ingested_at : option string;
}.

(** [put_item] replaces the whole item stored under the key. *)
Definition put_item (date : string) (a : attrs) (store : gmap string attrs)
  : gmap string attrs := <[date := a]> store.

(** ** Ingestion handler *)
Module Ingestion.

Definition WATCHLIST : list string :=
  ["AAPL"; "MSFT"; "GOOGL"; "AMZN"; "TSLA"; "NVDA"].
Definition RETRY_DELAY : Q := 1%Q.
Definition MAX_RETRIES : nat := 2.

(** A value of the decoded body, as far as the handler can tell values
    apart.  A string comes with what [float] makes of it, none when
    [float] raises; an array or an object only with whether it is
    empty. *)
Inductive json :=
| JInt (z : Z)
| JFloat (x : float)
| JStr (text : string) (as_float : option float)
| JBool (b : bool)
| JArray (empty : bool)
| JObject (empty : bool).

(** An element of [results] in a 200 body, reduced to the four keys the
    handler looks at; [None] is a key that is not there or holds
    [null]. *)
Record bar := {
  bar_o : option json;
  bar_O : option json;
  bar_c : option json;
  bar_C : option json;
}.

(** What one [requests.get] can come back with.  [results = None] is a
    body that [resp.json()] or the lookups in it reject. *)
Inductive reply :=
| Http (status_code : Z) (results : option (list bar))
| Timeout
| ConnectionError
| Unexpected.

Record quote := { quote_O : float; quote_C : float }.

(** Calls the handler makes to the outside, in order. *)
Inductive effect :=
| GetSecret
| Request (ticker : string) (attempt : nat)
| Sleep (seconds : Q)
| PutItem (date : string) (a : attrs).

(** Truth value of a value or [None], and Python's [a or b]. *)
Definition truthy (v : option json) : bool :=
  match v with
  | None => false
  | Some (JInt z) => negb (z =? 0)
  | Some (JFloat x) => negb (PrimFloat.eqb x 0)
  | Some (JStr text _) => negb (String.eqb text "")
  | Some (JBool b) => b
  | Some (JArray empty) => negb empty
  | Some (JObject empty) => negb empty
  end.

Definition py_or (a b : option json) : option json :=
  if truthy a then a else b.

(** [v == 0]. *)
Definition equals_zero (v : json) : bool :=
  match v with
  | JInt z => z =? 0
  | JFloat x => PrimFloat.eqb x 0
  | JBool b => negb b
  | JStr _ _ => false
  | JArray _ => false
  | JObject _ => false
  end.

(** [float(v)]; [None] when it raises: a text that is no number, an
    array or object, an integer beyond the floats. *)
Definition to_float (v : json) : option float :=
  match v with
  | JInt z =>
    if is_infinity (float_of_Z z) then None else Some (float_of_Z z)
  | JFloat x => Some x
  | JStr _ as_float => as_float
  | JBool b => Some (if b then 1%float else 0%float)
  | JArray _ => None
  | JObject _ => None
  end.

(** Lines 73-92: the body of the [status_code == 200] branch; what
    raises in it is caught at line 118. *)
Definition read_bar (results : option (list bar)) : option quote :=
  match results with
  | None => None
  | Some [] => None
  | Some (b :: _) =>
    let open_price := py_or (bar_o b) (bar_O b) in
    let close_price := py_or (bar_c b) (bar_C b) in
    match open_price, close_price with
    | Some o, Some c =>
      if equals_zero o then None
      else
        match to_float o, to_float c with
        | Some fo, Some fc => Some {| quote_O := fo; quote_C := fc |}
        | _, _ => None
        end
    | _, _ => None
    end
  end.

(** One turn of the [for attempt in range(1, MAX_RETRIES + 2)] loop:
    either the function returns, or it sleeps and takes the next turn. *)
Inductive turn :=
| Return (result : option quote)
| Continue (wait : Q).

Definition attempt_once (attempt : nat) (r : reply) : turn :=
  match r with
  | Http status_code results =>
    if status_code =? 200 then Return (read_bar results)
    else if status_code =? 429 then
      Continue (RETRY_DELAY * inject_Z (2 ^ Z.of_nat (attempt - 1)))%Q
    else if (status_code =? 500) || (status_code =? 502)
            || (status_code =? 503) || (status_code =? 504) then
      Continue RETRY_DELAY
    else Return None
  | Timeout => Continue RETRY_DELAY
  | ConnectionError => Return None
  | Unexpected => Return None
  end.

(** The loop, with [remaining] turns left; [upstream n] is what the
    [n]-th request for this ticker comes back with. *)
Fixpoint fetch_loop (ticker : string) (upstream : nat -> reply)
    (attempt remaining : nat) : option quote * list effect :=
  match remaining with
  | O => (None, [])
  | S remaining' =>
    match attempt_once attempt (upstream attempt) with
    | Return result => (result, [Request ticker attempt])
    | Continue wait =>
      let '(result, trace) :=
        fetch_loop ticker upstream (S attempt) remaining' in
      (result, Request ticker attempt :: Sleep wait :: trace)
    end
  end.

Definition fetch_ticker (ticker : string) (upstream : nat -> reply)
  : option quote * list effect :=
  fetch_loop ticker upstream 1 (MAX_RETRIES + 1).

(** Lines 126-128.  Python's float division raises on a divisor equal
    to zero; the other operations are those of binary64. *)
Definition calculate_pct_change (open_price close_price : float)
  : exn + float :=
  if PrimFloat.eqb open_price 0 then inl ZeroDivisionError
  else inr (PrimFloat.mul
              (PrimFloat.div (PrimFloat.sub close_price open_price)
                 open_price) 100).

(** An element of [results] in [main]. *)
Record entry := {
  e_ticker : string;
  e_pct_change : float;
  e_closing_price : float;
}.

(** [max(iterable, key=...)] after its first element: a later element
    replaces the running maximum only when its key is greater, [>] on
    floats being false as soon as one side is NaN. *)
Fixpoint max_from {A : Type} (key : A -> float) (best : A) (rest : list A)
  : A :=
  match rest with
  | [] => best
  | x :: rest' =>
    if PrimFloat.ltb (key best) (key x) then max_from key x rest'
    else max_from key best rest'
  end.

Definition py_max {A : Type} (key : A -> float) (l : list A) : exn + A :=
  match l with
  | [] => inl (ValueError "max() arg is an empty sequence")
  | x :: rest => inr (max_from key x rest)
  end.

(** Line 195. *)
Definition winner (results : list entry) : exn + entry :=
  py_max (fun x => PrimFloat.abs (e_pct_change x)) results.

(** The world one run of the handler sees: what [get_secret_value]
    gives, what the [n]-th request for a ticker comes back with, and
    the exception of [put_item], if it raises. *)
Record world := {
  secret : exn + string;
  upstream : string -> nat -> reply;
  put_item_error : option exn;
}.

Definition get_api_key (w : world) : (exn + string) * list effect :=
  (secret w, [GetSecret]).

(** The item [write_winner] builds; [now] is the UTC time of the write. *)
Definition winner_item (ticker : string) (pct_change closing_price : float)
    (now : string) : attrs :=
  {| a_ticker := Some ticker;
     a_percent_change := Some (Num (py_round pct_change 4));
     a_closing_price := Some (Num (py_round closing_price 2));
     a_ingested_at := Some now |}.

(** [write_winner]: one [put_item]; its error is logged and raised
    again.  A [put_item] that raises leaves the table as it was. *)
Definition write_winner (w : world) (trade_date ticker : string)
    (pct_change closing_price : float) (now : string)
    (store : gmap string attrs)
  : (exn + unit) * gmap string attrs * list effect :=
  let a := winner_item ticker pct_change closing_price now in
  match put_item_error w with
  | Some e => (inl e, store, [PutItem trade_date a])
  | None => (inr tt, put_item trade_date a store, [PutItem trade_date a])
  end.

(** Lines 163-180: the loop over the watchlist.  It ends with the
    collected entries and the failed tickers, or with the exception of
    line 174, which nothing in [main] catches. *)
Fixpoint fetch_all (w : world) (tickers : list string)
  : (exn + list entry * list string) * list effect :=
  match tickers with
  | [] => (inr ([], []), [])
  | ticker :: tickers' =>
    let '(data, t1) := fetch_ticker ticker (upstream w ticker) in
    match data with
    | None =>
      let '(after, t2) := fetch_all w tickers' in
      (match after with
       | inl e => inl e
       | inr (results, failed_tickers) =>
         inr (results, ticker :: failed_tickers)
       end, t1 ++ Sleep RETRY_DELAY :: t2)
    | Some q =>
      match calculate_pct_change (quote_O q) (quote_C q) with
      | inl e => (inl e, t1 ++ [Sleep RETRY_DELAY])
      | inr pct =>
        let '(after, t2) := fetch_all w tickers' in
        (match after with
         | inl e => inl e
         | inr (results, failed_tickers) =>
           inr ({| e_ticker := ticker; e_pct_change := pct;
                   e_closing_price := quote_C q |} :: results,
                failed_tickers)
         end, t1 ++ Sleep RETRY_DELAY :: t2)
      end
    end
  end.

(** The value [main] returns, or the exception that leaves it. *)
Inductive body :=
| Text (s : string)
| NoData (message date : string)
| Summary (date winner : string) (percent_change closing_price : float)
    (tickers_processed : nat) (tickers_failed : list string).

Inductive outcome :=
| Returned (statusCode : Z) (b : body)
| Raised (e : exn).

(** Lines 151-219; [trade_date] is [date.today().isoformat()]. *)
Definition main (w : world) (trade_date now : string)
    (store : gmap string attrs)
  : outcome * gmap string attrs * list effect :=
  let '(key, t0) := get_api_key w in
  match key with
  | inl _ => (Returned 500 (Text "Failed to retrieve API key"), store, t0)
  | inr api_key =>
    let '(collected, t1) := fetch_all w WATCHLIST in
    match collected with
    | inl e => (Raised e, store, t0 ++ t1)
    | inr ([], failed_tickers) =>
      (Returned 200
         (NoData "No data — market closed or API unavailable" trade_date),
       store, t0 ++ t1)
    | inr (results, failed_tickers) =>
      match winner results with
      | inl e => (Raised e, store, t0 ++ t1)
      | inr win =>
        let '(written, store', t2) :=
          write_winner w trade_date (e_ticker win) (e_pct_change win)
            (e_closing_price win) now store in
        match written with
        | inl e => (Raised e, store', t0 ++ t1 ++ t2)
        | inr _ =>
          (Returned 200
             (Summary trade_date (e_ticker win)
                (py_round (e_pct_change win) 4)
                (py_round (e_closing_price win) 2)
                (length results) failed_tickers),
           store', t0 ++ t1 ++ t2)
        end
      end
    end
  end.

End Ingestion.

(** ** Query handler *)
Module Query.

Definition DAYS_TO_RETURN : nat := 7.

Definition CORS_HEADERS : list (string * string) :=
  [("Access-Control-Allow-Origin", "*");
   ("Access-Control-Allow-Headers", "Content-Type");
   ("Access-Control-Allow-Methods", "GET,OPTIONS");
   ("Content-Type", "application/json")].

(** A calendar date is its proleptic Gregorian day number, the value of
    [date.toordinal()]: day 1 is 0001-01-01.  [isoformat] prints it as
    YYYY-MM-DD (the civil-from-days computation, for the years 1 to 9999
    that [datetime.date] covers). *)
Definition digit (n : Z) : string :=
  String (ascii_of_N (48 + Z.to_N (n mod 10))) EmptyString.
Definition dec2 (n : Z) : string := digit (n / 10) +:+ digit n.
Definition dec4 (n : Z) : string := dec2 (n / 100) +:+ dec2 n.

Definition isoformat (ordinal : Z) : string :=
  let z := ordinal + 305 in
  let era := z / 146097 in
  let doe := z - era * 146097 in
  let yoe := (doe - doe / 1460 + doe / 36524 - doe / 146096) / 365 in
  let doy := doe - (365 * yoe + yoe / 4 - yoe / 100) in
  let mp := (5 * doy + 2) / 153 in
  let d := doy - (153 * mp + 2) / 5 + 1 in
  let m := if mp <? 10 then mp + 3 else mp - 9 in
  let y := yoe + era * 400 + (if m <=? 2 then 1 else 0) in
  dec4 y +:+ "-" +:+ dec2 m +:+ "-" +:+ dec2 d.

(** [today - timedelta(days=i)] for [i] in [range(days)]. *)
Definition get_date_range (today : Z) (days : nat) : list string :=
  map (fun i => isoformat (today - Z.of_nat i)) (seq 0 days).

(** An item as [batch_get_item] returns it under the projection
    [#dt, ticker, percent_change, closing_price]. *)
Record item := {
  i_date : option string;
  i_ticker : option string;
  i_percent_change : option attr_value;
  i_closing_price : option attr_value;
}.

(** An element of [movers] in the response body. *)
Record mover := {
  m_date : string;
  m_ticker : string;
  m_percent_change : float;
  m_closing_price : float;
}.

(** [batch_get_item] as the handler sees it: the items of [Responses],
    or the [ClientError] it raises.  [UnprocessedKeys] is only logged. *)
Definition backend := list string -> exn + list item.

(** The table behind it.  [served] lists the keys DynamoDB answers, in
    the order it answers them; requested keys outside [served] are the
    unprocessed ones. *)
Definition table_item (store : gmap string attrs) (d : string)
  : option item :=
  match store !! d with
  | Some a =>
    Some {| i_date := Some d; i_ticker := a_ticker a;
            i_percent_change := a_percent_change a;
            i_closing_price := a_closing_price a |}
  | None => None
  end.

Definition batch_get_item (store : gmap string attrs)
    (served : list string) : backend :=
  fun keys =>
    inr (omap (fun d => if bool_decide (d ∈ keys) then table_item store d
                        else None) served).

Definition query_movers (db : backend) (date_range : list string)
  : (exn + list item) * list (list string) :=
  match date_range with
  | [] => (inr [], [])
  | _ :: _ => (db date_range, [date_range])
  end.

(** [float(item.get(name, 0))]. *)
Definition float_or_zero (v : option attr_value) : exn + float :=
  match v with
  | None => inr 0%float
  | Some (Num x) => inr x
  | Some (NotNum text) => inl (ValueError text)
  end.

Definition format_item (it : item) : exn + mover :=
  match i_date it with
  | None => inl (KeyError "date")
  | Some date =>
    match i_ticker it with
    | None => inl (KeyError "ticker")
    | Some ticker =>
      match float_or_zero (i_percent_change it) with
      | inl e => inl e
      | inr pc =>
        match float_or_zero (i_closing_price it) with
        | inl e => inl e
        | inr cp =>
          inr {| m_date := date; m_ticker := ticker;
                 m_percent_change := py_round pc 2;
                 m_closing_price := py_round cp 2 |}
        end
      end
    end
  end.

(** [[format_item(item) for item in items]]: the first exception ends it. *)
Fixpoint format_items (items : list item) : exn + list mover :=
  match items with
  | [] => inr []
  | it :: items' =>
    match format_item it with
    | inl e => inl e
    | inr m =>
      match format_items items' with
      | inl e => inl e
      | inr ms => inr (m :: ms)
      end
    end
  end.

(** [sorted(..., key=lambda x: x["date"], reverse=True)]: a stable sort,
    elements with equal dates keep the order they came in. *)
Fixpoint insert_desc (x : mover) (l : list mover) : list mover :=
  match l with
  | [] => [x]
  | y :: l' =>
    if String.leb (m_date y) (m_date x) then x :: y :: l'
    else y :: insert_desc x l'
  end.

Fixpoint sorted_desc (l : list mover) : list mover :=
  match l with
  | [] => []
  | x :: l' => insert_desc x (sorted_desc l')
  end.

Record event := { httpMethod : option string }.

Inductive body :=
| Empty
| Movers (movers : list mover) (count : nat)
| Error (error message : string).

Record response := {
  statusCode : Z;
  headers : list (string * string);
  body_of : body;
}.

(** Lines 111-131, the block under [try]. *)
Definition serve (db : backend) (today : Z)
  : (exn + response) * list (list string) :=
  let date_range := get_date_range today DAYS_TO_RETURN in
  let '(items, trace) := query_movers db date_range in
  match items with
  | inl e => (inl e, trace)
  | inr items =>
    match format_items items with
    | inl e => (inl e, trace)
    | inr formatted =>
      let movers := sorted_desc formatted in
      (inr {| statusCode := 200; headers := CORS_HEADERS;
              body_of := Movers movers (length movers) |}, trace)
    end
  end.

Definition main (ev : event) (db : backend) (today : Z)
  : response * list (list string) :=
  if bool_decide (httpMethod ev = Some "OPTIONS") then
    ({| statusCode := 200; headers := CORS_HEADERS; body_of := Empty |}, [])
  else
    let '(served, trace) := serve db today in
    match served with
    | inr resp => (resp, trace)
    | inl e =>
      ({| statusCode := 500; headers := CORS_HEADERS;
          body_of := Error "Internal server error" (str_exn e) |}, trace)
    end.

End Query.

(** ** Vocabulary of the specification

    The retry policy as the specification words it, to be compared with
    the loop above: the replies after which another request follows,
    the pause taken before it, and the value the call settles on
    otherwise. *)
Module Policy.
Import Ingestion.

Definition retried (r : reply) : bool :=
  match r with
  | Http status_code _ =>
    (status_code =? 429) || (status_code =? 500) || (status_code =? 502)
    || (status_code =? 503) || (status_code =? 504)
  | Timeout => true
  | ConnectionError => false
  | Unexpected => false
  end.

Definition pause (attempt : nat) (r : reply) : Q :=
  match r with
  | Http 429 _ => (RETRY_DELAY * inject_Z (2 ^ Z.of_nat (attempt - 1)))%Q
  | _ => RETRY_DELAY
  end.

Definition settled (r : reply) : option quote :=
  match r with
  | Http 200 results => read_bar results
  | _ => None
  end.

(** A failed attempt as it shows in the trace. *)
Definition failed_attempt (ticker : string) (upstream : nat -> reply)
    (attempt : nat) : list effect :=
  [Request ticker attempt; Sleep (pause attempt (upstream attempt))].

Definition requests (trace : list effect) : list effect :=
  List.filter
    (fun e => match e with Request _ _ => true | _ => false end) trace.

Definition writes (trace : list effect) : list effect :=
  List.filter
    (fun e => match e with PutItem _ _ => true | _ => false end) trace.

(** Rounding to a number of fractional digits as the specification has
    it, for a float [x] and the float [r] it is rounded to.  For a
    finite [x] there is an integer [k] of units of [10^-ndigits] at
    most half a unit from the magnitude of [x], even when it is exactly
    half a unit away, and [r] is the float nearest to [k] units, the
    quotient of the floats of [k] and of [10^ndigits], under the sign
    of [x]; from [2^53] units on, [r] is [x].  An infinity or a NaN is
    rounded to itself. *)
Definition rounded (x : float) (ndigits : nat) (r : float) : Prop :=
  match exact x with
  | None => r = x
  | Some q =>
    exists k : Z,
      let off :=
        (inject_Z k - Qabs q * inject_Z (10 ^ Z.of_nat ndigits))%Q in
      (Qabs off <= 1 # 2)%Q /\
      ((Qabs off == 1 # 2)%Q -> Z.even k = true) /\
      r = if k <? 2 ^ 53 then
            let m := PrimFloat.div (float_of_Z k)
                       (float_of_Z (10 ^ Z.of_nat ndigits)) in
            if get_sign x then PrimFloat.opp m else m
          else x
  end.

(** A stored record the read path can format: it carries a ticker, and
    its two numeric attributes, where present, are numbers. *)
Definition is_number (v : option attr_value) : Prop :=
  forall text, v <> Some (NotNum text).

Definition readable (a : attrs) : Prop :=
  is_Some (a_ticker a) /\ is_number (a_percent_change a)
  /\ is_number (a_closing_price a).

(** The order of the response body: the date of a later mover is not
    above the date of an earlier one, as texts. *)
Definition newest_first (a b : Query.mover) : Prop :=
  (Query.m_date b ≤ Query.m_date a)%string.

(** The two responses of the read path. *)
Definition ok_response (movers : list Query.mover) : Query.response :=
  {| Query.statusCode := 200; Query.headers := Query.CORS_HEADERS;
     Query.body_of := Query.Movers movers (length movers) |}.

Definition error_response (e : exn) : Query.response :=
  {| Query.statusCode := 500; Query.headers := Query.CORS_HEADERS;
     Query.body_of := Query.Error "Internal server error" (str_exn e) |}.

End Policy.

(** ** Sample worlds *)
Module Sample.
Import Ingestion.

Definition bar_of (o c : float) : bar :=
  {| bar_o := Some (JFloat o); bar_O := None;
     bar_c := Some (JFloat c); bar_C := None |}.

(** AAPL +1%, MSFT -5%, TSLA +5%, nothing for the other three. *)
Definition quiet_day (ticker : string) (attempt : nat) : reply :=
  if String.eqb ticker "AAPL" then Http 200 (Some [bar_of 100 101])
  else if String.eqb ticker "MSFT" then Http 200 (Some [bar_of 200 190])
  else if String.eqb ticker "TSLA" then Http 200 (Some [bar_of 300 315])
  else Http 200 (Some []).

Definition closed_market (ticker : string) (attempt : nat) : reply :=
  Http 200 (Some []).

Definition world_ok : world :=
  {| secret := inr "key"; upstream := quiet_day; put_item_error := None |}.

Definition world_closed : world :=
  {| secret := inr "key"; upstream := closed_market;
     put_item_error := None |}.

Definition world_no_secret : world :=
  {| secret := inl (ClientError "AccessDeniedException");
     upstream := quiet_day; put_item_error := None |}.

Definition world_no_write : world :=
  {| secret := inr "key"; upstream := quiet_day;
     put_item_error := Some (ClientError "ProvisionedThroughputExceeded") |}.

(** AAPL 100.2 to 110.22 and MSFT 300.6 to 330.66, nothing for the
    other four. *)
Definition near_tie (ticker : string) (attempt : nat) : reply :=
  if String.eqb ticker "AAPL" then Http 200 (Some [bar_of 100.2 110.22])
  else if String.eqb ticker "MSFT" then Http 200 (Some [bar_of 300.6 330.66])
  else Http 200 (Some []).

Definition world_near_tie : world :=
  {| secret := inr "key"; upstream := near_tie; put_item_error := None |}.

(** AAPL 1000 to 1026.75, nothing for the other five. *)
Definition half_day (ticker : string) (attempt : nat) : reply :=
  if String.eqb ticker "AAPL" then Http 200 (Some [bar_of 1000 1026.75])
  else Http 200 (Some []).

Definition world_half : world :=
  {| secret := inr "key"; upstream := half_day; put_item_error := None |}.



(** AAPL 100 to 101, then MSFT with the opening price sent as the text
    ["0"]. *)
Definition text_day (ticker : string) (attempt : nat) : reply :=
  if String.eqb ticker "AAPL" then Http 200 (Some [bar_of 100 101])
  else if String.eqb ticker "MSFT" then
    Http 200 (Some [{| bar_o := Some (JStr "0" (Some 0%float));
                       bar_O := None;
                       bar_c := Some (JFloat 5); bar_C := None |}])
  else Http 200 (Some []).

Definition world_text : world :=
  {| secret := inr "key"; upstream := text_day; put_item_error := None |}.

(** 503, then 429, then 404. *)
Definition flaky (attempt : nat) : reply :=
  match attempt with
  | 1%nat => Http 503 None
  | 2%nat => Http 429 None
  | _ => Http 404 None
  end.

(** A table holding the records of 2025-01-03 and 2024-12-31, and a
    backend that answers the older key first. *)
Definition two_days : gmap string attrs :=
  put_item "2025-01-03" (winner_item "MSFT" (-5) 190 "2025-01-03T21:00:07")
    (put_item "2024-12-31" (winner_item "TSLA" 1.23456 410.05
                              "2024-12-31T21:00:06") ∅).

Definition oldest_first : list string :=
  ["2024-12-28"; "2024-12-31"; "2025-01-03"].

Definition unavailable : Query.backend :=
  fun _ => inl (ClientError "ResourceNotFoundException").

(** A response with an item that has no ticker. *)
Definition nameless : Query.backend :=
  fun _ =>
    inr [{| Query.i_date := Some "2025-01-03"; Query.i_ticker := None;
            Query.i_percent_change := None;
            Query.i_closing_price := None |}].

(** A response with an item that has only its key attributes. *)
Definition bare : Query.backend :=
  fun _ =>
    inr [{| Query.i_date := Some "2025-01-03";
            Query.i_ticker := Some "MSFT";
            Query.i_percent_change := None;
            Query.i_closing_price := None |}].

Definition get : Query.event := {| Query.httpMethod := Some "GET" |}.

End Sample.

(** ** Vocabulary of a run *)
Module Run.
Import Ingestion.

(** What [fetch_ticker] gives for a ticker in a world. *)
Definition quote_of (w : world) (ticker : string) : option quote :=
  (fetch_ticker ticker (upstream w ticker)).1.

Definition has_quote (w : world) (ticker : string) : bool :=
  match quote_of w ticker with Some _ => true | None => false end.

(** The change of a quote whose opening price is not zero, and the
    entry the loop of [main] appends for it. *)
Definition change_of (q : quote) : float :=
  PrimFloat.mul
    (PrimFloat.div (PrimFloat.sub (quote_C q) (quote_O q)) (quote_O q)) 100.

Definition entry_of (ticker : string) (q : quote) : entry :=
  {| e_ticker := ticker; e_pct_change := change_of q;
     e_closing_price := quote_C q |}.

(** A ticker at which the loop of [main] stops with an exception: it
    gave a quote whose opening price is zero. *)
Definition divides_by_zero (w : world) (ticker : string) : bool :=
  match quote_of w ticker with
  | Some q => PrimFloat.eqb (quote_O q) 0
  | None => false
  end.

(** The requests of a trace that ask for one ticker. *)
Definition requests_for (ticker : string) (trace : list effect)
  : list effect :=
  List.filter
    (fun e => match e with
              | Request t _ => String.eqb t ticker
              | _ => false
              end) trace.

Definition secret_reads (trace : list effect) : list effect :=
  List.filter (fun e => match e with GetSecret => true | _ => false end)
    trace.

(** The seconds a trace spends in [time.sleep], and the most one call
    of [fetch_ticker] can spend there from a given attempt on. *)
Definition slept (trace : list effect) : Q :=
  fold_right (fun e acc => match e with
                           | Sleep seconds => (seconds + acc)%Q
                           | _ => acc
                           end) 0%Q trace.

Fixpoint pause_budget (attempt remaining : nat) : Q :=
  match remaining with
  | O => 0%Q
  | S remaining' =>
    (RETRY_DELAY * inject_Z (2 ^ Z.of_nat (attempt - 1))
     + pause_budget (S attempt) remaining')%Q
  end.

End Run.

(** ** Vocabulary of the calendar

    The year, month and day that [Query.isoformat] prints, the part of
    them that depends only on the day within a 400-year era, and the
    check that runs through the days of one era. *)
Module Calendar.

Definition MAX_ORDINAL : Z := 3652059.

Definition civil (ordinal : Z) : Z * Z * Z :=
  let z := ordinal + 305 in
  let era := z / 146097 in
  let doe := z - era * 146097 in
  let yoe := (doe - doe / 1460 + doe / 36524 - doe / 146096) / 365 in
  let doy := doe - (365 * yoe + yoe / 4 - yoe / 100) in
  let mp := (5 * doy + 2) / 153 in
  let d := doy - (153 * mp + 2) / 5 + 1 in
  let m := if mp <? 10 then mp + 3 else mp - 9 in
  let y := yoe + era * 400 + (if m <=? 2 then 1 else 0) in
  (y, m, d).

Definition print (t : Z * Z * Z) : string :=
  Query.dec4 t.1.1 +:+ "-" +:+ Query.dec2 t.1.2 +:+ "-" +:+ Query.dec2 t.2.

Definition era_day (doe : Z) : Z * Z * Z :=
  let yoe := (doe - doe / 1460 + doe / 36524 - doe / 146096) / 365 in
  let doy := doe - (365 * yoe + yoe / 4 - yoe / 100) in
  let mp := (5 * doy + 2) / 153 in
  let d := doy - (153 * mp + 2) / 5 + 1 in
  let m := if mp <? 10 then mp + 3 else mp - 9 in
  (yoe + (if m <=? 2 then 1 else 0), m, d).

Definition day_key (t : Z * Z * Z) : Z :=
  t.1.1 * 10000 + t.1.2 * 100 + t.2.

Definition in_era (t : Z * Z * Z) : bool :=
  (0 <=? t.1.1) && (t.1.1 <=? 400) && (1 <=? t.1.2) && (t.1.2 <=? 12)
  && (1 <=? t.2) && (t.2 <=? 31).

Fixpoint era_checked (fuel : nat) (doe prev : Z) : bool :=
  match fuel with
  | O => true
  | S fuel' =>
    let t := era_day doe in
    if in_era t && (prev <? day_key t)
    then era_checked fuel' (doe + 1) (day_key t)
    else false
  end.

(** The text of a list of character codes, and the order of two such
    lists by their first difference. *)
Fixpoint text_of (codes : list N) : string :=
  match codes with
  | [] => EmptyString
  | c :: codes' => String (ascii_of_N c) (text_of codes')
  end.

Fixpoint first_difference (a b : list N) : comparison :=
  match a, b with
  | [], [] => Eq
  | [], _ :: _ => Lt
  | _ :: _, [] => Gt
  | x :: a', y :: b' =>
    match (x ?= y)%N with
    | Eq => first_difference a' b'
    | c => c
    end
  end.

Definition code (n : Z) : N := (48 + Z.to_N (n mod 10))%N.

Definition codes_of (t : Z * Z * Z) : list N :=
  [code (t.1.1 / 100 / 10); code (t.1.1 / 100); code (t.1.1 / 10);
   code t.1.1; 45%N; code (t.1.2 / 10); code t.1.2; 45%N;
   code (t.2 / 10); code t.2].

(** The age in days of each mover of a response on a given day. *)
Definition listed_by_age (today : Z) (movers : list Query.mover)
    (ages : list nat) : Prop :=
  map Query.m_date movers
    = map (fun i => Query.isoformat (today - Z.of_nat i)) ages.

End Calendar.

(** * Properties *)

Import Ingestion.

(** ** The order of the floats *)


Lemma SFcompare_refl (f : spec_float) :
  f <> S754_nan -> SFcompare f f = Some Eq.
Proof.
  destruct f as [s|s| |s m e]; simpl; intros H; try congruence.
  - now destruct s.
  - change (PosDef.Pos.compare_cont Eq m m) with (m ?= m)%positive.
    rewrite Z.compare_refl, Pos.compare_refl. now destruct s.
Qed.




Lemma is_nan_false (x : float) :
  is_nan x = false <-> Prim2SF x <> S754_nan.
Proof.
  unfold is_nan. rewrite FloatAxioms.eqb_spec. unfold SFeqb. split.
  - intros H Hn. rewrite Hn in H. discriminate.
  - intros H. now rewrite SFcompare_refl.
Qed.

Lemma is_nan_true (x : float) :
  is_nan x = true <-> Prim2SF x = S754_nan.
Proof.
  split.
  - intros H. destruct (Prim2SF x) eqn:E; trivial;
      assert (Hf : is_nan x = false)
        by (apply is_nan_false; rewrite E; discriminate);
      congruence.
  - intros H. apply not_false_iff_true. intros Hf.
    now apply is_nan_false in Hf.
Qed.





(** A comparison with a NaN is false. *)
Lemma ltb_nan (a b : float) :
  is_nan a = true \/ is_nan b = true ->
  (a <? b)%float = false /\ (a <=? b)%float = false.
Proof.
  rewrite !is_nan_true, FloatAxioms.ltb_spec, FloatAxioms.leb_spec.
  unfold SFltb, SFleb.
  intros [-> | ->]; simpl; [tauto|].
  destruct (Prim2SF a); tauto.
Qed.

(** A float above zero does not compare equal to zero. *)
Lemma ltb_positive_not_zero (x : float) :
  (0 <? x)%float = true -> (x =? 0)%float = false.
Proof.
  rewrite FloatAxioms.ltb_spec, FloatAxioms.eqb_spec. unfold SFltb, SFeqb.
  change (Prim2SF 0) with (S754_zero false).
  destruct (Prim2SF x) as [s|s| |s m e]; simpl; try discriminate;
    destruct s; simpl; congruence.
Qed.

(** ** The mover calculator *)

Section MaxFrom.
Context {A : Type} (key : A -> float).

(** The running maximum is one of the scanned elements. *)
Lemma max_from_elem (rest : list A) : forall best,
  In (max_from key best rest) (best :: rest).
Proof.
  induction rest as [|x rest IH]; intros best; simpl; [now left|].
  destruct (key best <? key x)%float.
  - right. apply IH.
  - destruct (IH best) as [H|H]; [now left | now right; right].
Qed.

(** A first key that is a NaN is never replaced. *)
Lemma max_from_nan (rest : list A) (best : A) :
  is_nan (key best) = true -> max_from key best rest = best.
Proof.
  intros Hnan. induction rest as [|x rest IH]; [reflexivity|].
  simpl. destruct (ltb_nan (key best) (key x) (or_introl Hnan)) as [-> _].
  exact IH.
Qed.
End MaxFrom.

(** The change of a quote is computed unless the opening price compares
    equal to zero. *)
Lemma calculate_pct_change_raises (open_price close_price : float) :
  calculate_pct_change open_price close_price = inl ZeroDivisionError
  <-> (open_price =? 0)%float = true.
Proof.
  unfold calculate_pct_change.
  destruct (open_price =? 0)%float; split; congruence.
Qed.

(** C2.  For an opening price above zero the function raises nothing
    and returns the float that the three operations of
    [((close - open) / open) * 100] give in turn, each rounded to
    binary64 as IEEE 754 has it. *)
Theorem calculate_pct_change_formula (open_price close_price : float) :
  (0 <? open_price)%float = true ->
  exists pct : float,
    calculate_pct_change open_price close_price = inr pct /\
    pct = (((close_price - open_price) / open_price) * 100)%float /\
    Prim2SF pct =
      SF64mul
        (SF64div (SF64sub (Prim2SF close_price) (Prim2SF open_price))
           (Prim2SF open_price))
        (Prim2SF 100).
Proof.
  intros Hpos. eexists. split; [|split; [reflexivity|]].
  - unfold calculate_pct_change.
    now rewrite (ltb_positive_not_zero _ Hpos).
  - now rewrite mul_spec, div_spec, sub_spec.
Qed.

Lemma calculate_pct_change_formula_witness :
  (0 <? 80)%float = true /\
  exists pct : float,
    calculate_pct_change 80 82.875 = inr pct /\
    pct = (((82.875 - 80) / 80) * 100)%float /\
    Prim2SF pct =
      SF64mul (SF64div (SF64sub (Prim2SF 82.875) (Prim2SF 80)) (Prim2SF 80))
        (Prim2SF 100).
Proof.
  split; [reflexivity|].
  apply (calculate_pct_change_formula 80 82.875). reflexivity.
Defined.

(** The float returned for an opening price of 3 and a closing price of
    4 stands for a number other than [((4 - 3) / 3) * 100]. *)
Lemma calculate_pct_change_inexact :
  (0 <? 3)%float = true /\
  exists (pct : float) (q : Q),
    calculate_pct_change 3 4 = inr pct /\
    exact pct = Some q /\
    ~ (q == ((4 - 3) / 3) * 100)%Q.
Proof.
  split; [reflexivity|].
  exists (((4 - 3) / 3) * 100)%float.
  eexists. split; [reflexivity|]. split; [vm_compute; reflexivity|].
  vm_compute. discriminate.
Qed.

(** The floats the function returns for three pairs of prices; the
    exact quotients are 33.33..., 3.59375 and 2.675.  The last float is
    the one nearest to 2.675, and lies below it. *)
Example calculate_pct_change_samples :
  calculate_pct_change 3 4 = inr 33.333333333333329%float /\
  calculate_pct_change 80 82.875 = inr 3.5937499999999996%float /\
  calculate_pct_change 1000 1026.75 = inr 2.675%float /\
  exact 2.675 = Some (6023564501608038 # 2251799813685248)%Q.
Proof. repeat split; reflexivity. Qed.




(** On the sample day MSFT (-5%) wins over TSLA (+5%), which comes
    later in the watchlist. *)
Example sample_day_winner :
  (main Sample.world_ok "2025-06-10" "2025-06-10T21:00:05+00:00" ∅).1.1
    = Returned 200
        (Summary "2025-06-10" "MSFT" (-5) 190 3 ["GOOGL"; "AMZN"; "NVDA"]).
Proof. reflexivity. Qed.

(** AAPL from 100.2 to 110.22 and MSFT from 300.6 to 330.66 both gain
    a tenth on paper; the floats computed are 9.9999999999999964 and
    10, and MSFT is the winner. *)
Example near_tie_winner :
  (fetch_all Sample.world_near_tie WATCHLIST).1
    = inr ([{| e_ticker := "AAPL"; e_pct_change := 0x1.3fffffffffffep+3;
               e_closing_price := 110.22 |};
            {| e_ticker := "MSFT"; e_pct_change := 10;
               e_closing_price := 330.66 |}],
           ["GOOGL"; "AMZN"; "TSLA"; "NVDA"]) /\
  (main Sample.world_near_tie "2025-06-10" "2025-06-10T21:00:05+00:00" ∅).1.1
    = Returned 200
        (Summary "2025-06-10" "MSFT" 10 330.66 2
           ["GOOGL"; "AMZN"; "TSLA"; "NVDA"]).
Proof. split; reflexivity. Qed.

(** ** The market data client *)

Import Policy.

(** What the 200 branch does with the first bar: the value under the
    lower-case key counts only when it is truthy, otherwise the
    upper-case key is read; the quote is returned when both values are
    there, the opening one does not equal zero and [float] takes
    both. *)
Lemma read_bar_first (b : bar) (rest : list bar) :
  read_bar (Some (b :: rest)) =
    match py_or (bar_o b) (bar_O b), py_or (bar_c b) (bar_C b) with
    | Some o, Some c =>
      if equals_zero o then None
      else
        match to_float o, to_float c with
        | Some fo, Some fc => Some {| quote_O := fo; quote_C := fc |}
        | _, _ => None
        end
    | _, _ => None
    end.
Proof. reflexivity. Qed.

(** C3.  A 200 reply whose first bar carries an opening price of 10 and
    a closing price of 0 under the lower-case keys: both fields are
    there and the opening price is not zero, yet the call returns
    nothing, after one request. *)
Theorem zero_close_read_as_missing :
  let b := {| bar_o := Some (JInt 10); bar_O := None;
              bar_c := Some (JInt 0); bar_C := None |} in
  bar_o b <> None /\ bar_c b <> None /\ equals_zero (JInt 10) = false /\
  fetch_ticker "AAPL" (fun _ => Http 200 (Some [b]))
    = (None, [Request "AAPL" 1%nat]).
Proof.
  cbv zeta. split; [discriminate|]. split; [discriminate|].
  split; reflexivity.
Qed.

(** The same with the prices sent as the floats 10.0 and 0.0. *)
Example zero_close_float :
  fetch_ticker "AAPL"
    (fun _ => Http 200 (Some [Sample.bar_of 10 0]))
    = (None, [Request "AAPL" 1%nat]).
Proof. reflexivity. Qed.

Lemma attempt_once_policy (attempt : nat) (r : reply) :
  attempt_once attempt r =
    if retried r then Continue (pause attempt r) else Return (settled r).
Proof.
  destruct r as [status_code results| | |]; try reflexivity.
  unfold attempt_once, retried, pause, settled.
  destruct (Z.eqb_spec status_code 200) as [->|H200]; [reflexivity|].
  destruct (Z.eqb_spec status_code 429) as [->|H429]; [reflexivity|].
  assert (Hs : forall A (x y : A),
             match status_code with 200 => x | _ => y end = y).
  { intros A x y. destruct status_code as [|p|p]; try reflexivity.
    repeat (destruct p as [p|p|]; try reflexivity). congruence. }
  assert (Hp : forall A (x y : A),
             match status_code with 429 => x | _ => y end = y).
  { intros A x y. destruct status_code as [|p|p]; try reflexivity.
    repeat (destruct p as [p|p|]; try reflexivity). congruence. }
  rewrite Hs, Hp. simpl.
  destruct (_ || _ || _ || _); reflexivity.
Qed.

Section FetchLoop.
Variables (ticker : string) (upstream : nat -> reply).

(** The loop stops at the first reply that is not retried. *)
Lemma fetch_loop_stops (remaining : nat) : forall attempt k : nat,
  (attempt <= k < attempt + remaining)%nat ->
  (forall j : nat, (attempt <= j < k)%nat -> retried (upstream j) = true) ->
  retried (upstream k) = false ->
  fetch_loop ticker upstream attempt remaining =
    (settled (upstream k),
     flat_map (failed_attempt ticker upstream) (seq attempt (k - attempt))
       ++ [Request ticker k]).
Proof.
  induction remaining as [|n IH]; intros attempt k Hk Hbefore Hstop.
  - lia.
  - simpl. rewrite attempt_once_policy.
    destruct (Nat.eq_dec attempt k) as [->|Hne].
    + rewrite Hstop. now rewrite Nat.sub_diag.
    + rewrite (Hbefore attempt) by lia.
      rewrite (IH (S attempt) k) by
        (try lia; try assumption; intros j Hj; apply Hbefore; lia).
      replace (k - attempt)%nat with (S (k - S attempt)) by lia.
      reflexivity.
Qed.

(** With every reply retried the loop runs out of turns. *)
Lemma fetch_loop_exhausts (remaining : nat) : forall attempt : nat,
  (forall j : nat, (attempt <= j < attempt + remaining)%nat ->
     retried (upstream j) = true) ->
  fetch_loop ticker upstream attempt remaining =
    (None,
     flat_map (failed_attempt ticker upstream) (seq attempt remaining)).
Proof.
  induction remaining as [|n IH]; intros attempt Hall; [reflexivity|].
  simpl. rewrite attempt_once_policy, (Hall attempt) by lia.
  rewrite (IH (S attempt)) by (intros j Hj; apply Hall; lia).
  reflexivity.
Qed.
End FetchLoop.

Lemma pause_fixed (attempt : nat) (r : reply) :
  (forall results, r <> Http 429 results) -> pause attempt r = RETRY_DELAY.
Proof.
  intros Hne. destruct r as [status_code results| | |]; try reflexivity.
  unfold pause. destruct status_code as [|p|p]; try reflexivity.
  repeat (destruct p as [p|p|]; try reflexivity).
  now destruct (Hne results).
Qed.

Lemma settled_not_200 (r : reply) :
  (forall results, r <> Http 200 results) -> settled r = None.
Proof.
  intros Hne. destruct r as [status_code results| | |]; try reflexivity.
  unfold settled. destruct status_code as [|p|p]; try reflexivity.
  repeat (destruct p as [p|p|]; try reflexivity).
  now destruct (Hne results).
Qed.

Lemma retried_iff (r : reply) :
  retried r = true <->
  r = Timeout \/
  exists status_code results,
    r = Http status_code results /\
    (status_code = 429 \/ status_code = 500 \/ status_code = 502 \/
     status_code = 503 \/ status_code = 504).
Proof.
  destruct r as [status_code results| | |]; simpl.
  - rewrite !orb_true_iff, !Z.eqb_eq. split.
    + intros H. right. exists status_code, results. tauto.
    + intros [H|(s & res & Heq & H)]; [discriminate|].
      injection Heq as -> _. tauto.
  - split; [now left | reflexivity].
  - split; [discriminate|]. intros [H|(s & res & Heq & _)]; discriminate.
  - split; [discriminate|]. intros [H|(s & res & Heq & _)]; discriminate.
Qed.

(** The loop never sends more requests than it has turns. *)
Lemma fetch_loop_budget (ticker : string) (upstream : nat -> reply)
    (remaining : nat) : forall attempt,
  (length (requests (fetch_loop ticker upstream attempt remaining).2)
     <= remaining)%nat.
Proof.
  induction remaining as [|n IH]; intros attempt; [reflexivity|].
  simpl. destruct (attempt_once attempt (upstream attempt)).
  - simpl. lia.
  - specialize (IH (S attempt)).
    destruct (fetch_loop ticker upstream (S attempt) n) as [result trace].
    simpl in *. lia.
Qed.

(** C4.  The replies that lead to another request are exactly a timeout
    and the statuses 429, 500, 502, 503 and 504; the pause before the
    next request is [RETRY_DELAY * 2^(attempt-1)] after a 429 and
    [RETRY_DELAY] after the others.  The first reply of any other kind
    ends the call with that request as the last one, and with nothing
    returned unless its status is 200.  When all [MAX_RETRIES + 1]
    replies are of the retried kind the call returns nothing.  In no
    case are more than [MAX_RETRIES + 1] requests sent. *)
Theorem fetch_ticker_retry_policy (ticker : string)
    (upstream : nat -> reply) :
  (forall r, retried r = true <->
     r = Timeout \/
     exists status_code results,
       r = Http status_code results /\
       (status_code = 429 \/ status_code = 500 \/ status_code = 502 \/
        status_code = 503 \/ status_code = 504)) /\
  (forall attempt results,
     pause attempt (Http 429 results)
       = (RETRY_DELAY * inject_Z (2 ^ Z.of_nat (attempt - 1)))%Q) /\
  (forall attempt r,
     (forall results, r <> Http 429 results) ->
     pause attempt r = RETRY_DELAY) /\
  (forall r, (forall results, r <> Http 200 results) -> settled r = None) /\
  (forall k : nat,
     (1 <= k <= MAX_RETRIES + 1)%nat ->
     (forall j : nat, (1 <= j < k)%nat -> retried (upstream j) = true) ->
     retried (upstream k) = false ->
     fetch_ticker ticker upstream =
       (settled (upstream k),
        flat_map (failed_attempt ticker upstream) (seq 1 (k - 1))
          ++ [Request ticker k])) /\
  ((forall j : nat, (1 <= j <= MAX_RETRIES + 1)%nat ->
      retried (upstream j) = true) ->
   fetch_ticker ticker upstream =
     (None,
      flat_map (failed_attempt ticker upstream) (seq 1 (MAX_RETRIES + 1))))
  /\
  (length (requests (fetch_ticker ticker upstream).2)
     <= MAX_RETRIES + 1)%nat.
Proof.
  split; [exact retried_iff|].
  split; [reflexivity|].
  split; [exact pause_fixed|].
  split; [exact settled_not_200|].
  split.
  - intros k Hk Hbefore Hstop. unfold fetch_ticker.
    apply fetch_loop_stops; trivial. lia.
  - split.
    + intros Hall. unfold fetch_ticker.
      apply fetch_loop_exhausts. intros j Hj. apply Hall. lia.
    + apply fetch_loop_budget.
Qed.

Lemma fetch_ticker_retry_policy_witness :
  fetch_ticker "NVDA" Sample.flaky =
    (None,
     [Request "NVDA" 1%nat; Sleep 1%Q;
      Request "NVDA" 2%nat; Sleep (1 * 2)%Q;
      Request "NVDA" 3%nat]).
Proof.
  refine (proj1 (proj2 (proj2 (proj2 (proj2
            (fetch_ticker_retry_policy "NVDA" Sample.flaky))))) 3%nat _ _ _).
  - unfold MAX_RETRIES. lia.
  - intros j Hj.
    assert (Hcases : j = 1%nat \/ j = 2%nat) by lia.
    destruct Hcases as [-> | ->]; reflexivity.
  - reflexivity.
Defined.

(** ** The ingestion run *)

Lemma writes_app (t1 t2 : list effect) :
  writes (t1 ++ t2) = writes t1 ++ writes t2.
Proof. unfold writes. apply List.filter_app. Qed.

Lemma fetch_loop_no_write (ticker : string) (upstream : nat -> reply)
    (remaining : nat) : forall attempt,
  writes (fetch_loop ticker upstream attempt remaining).2 = [].
Proof.
  induction remaining as [|n IH]; intros attempt; [reflexivity|].
  simpl. destruct (attempt_once attempt (upstream attempt)); [reflexivity|].
  specialize (IH (S attempt)).
  destruct (fetch_loop ticker upstream (S attempt) n) as [result trace].
  exact IH.
Qed.

(** One turn of the loop of [main], for a ticker and what
    [fetch_ticker] gave for it. *)
Lemma fetch_all_cons (w : world) (ticker : string) (tickers : list string) :
  fetch_all w (ticker :: tickers) =
    let t1 := (fetch_ticker ticker (upstream w ticker)).2 in
    match Run.quote_of w ticker with
    | None =>
      (match (fetch_all w tickers).1 with
       | inl e => inl e
       | inr (results, failed_tickers) =>
         inr (results, ticker :: failed_tickers)
       end, t1 ++ Sleep RETRY_DELAY :: (fetch_all w tickers).2)
    | Some q =>
      if (quote_O q =? 0)%float then
        (inl ZeroDivisionError, t1 ++ [Sleep RETRY_DELAY])
      else
        (match (fetch_all w tickers).1 with
         | inl e => inl e
         | inr (results, failed_tickers) =>
           inr (Run.entry_of ticker q :: results, failed_tickers)
         end, t1 ++ Sleep RETRY_DELAY :: (fetch_all w tickers).2)
    end.
Proof.
  unfold Run.quote_of. simpl fetch_all.
  destruct (fetch_ticker ticker (upstream w ticker)) as [data t1].
  destruct (fetch_all w tickers) as [after t2]. simpl.
  destruct data as [q|]; [|reflexivity].
  unfold calculate_pct_change.
  destruct (quote_O q =? 0)%float; reflexivity.
Qed.

Lemma fetch_all_no_write (w : world) (tickers : list string) :
  writes (fetch_all w tickers).2 = [].
Proof.
  induction tickers as [|ticker tickers IH]; [reflexivity|].
  rewrite fetch_all_cons.
  pose proof (fetch_loop_no_write ticker (upstream w ticker)
                (MAX_RETRIES + 1) 1) as Hone.
  fold (fetch_ticker ticker (upstream w ticker)) in Hone.
  cbv zeta.
  destruct (Run.quote_of w ticker) as [q|];
    [destruct (quote_O q =? 0)%float|]; simpl;
    rewrite writes_app, Hone; simpl; trivial.
Qed.

(** When no ticker yields a quote, nothing is collected and every
    ticker is reported as failed. *)
Lemma fetch_all_absent (w : world) (tickers : list string) :
  (forall ticker, In ticker tickers ->
     (fetch_ticker ticker (upstream w ticker)).1 = None) ->
  (fetch_all w tickers).1 = inr ([], tickers).
Proof.
  induction tickers as [|ticker tickers IH]; intros Habsent; [reflexivity|].
  rewrite fetch_all_cons. unfold Run.quote_of.
  rewrite (Habsent ticker (or_introl eq_refl)). simpl.
  rewrite IH; [reflexivity|]. intros t Ht. apply Habsent. now right.
Qed.

(** C5.  A run that got its key and no quote for any ticker of the
    watchlist returns status 200 with the no-data message, leaves the
    table as it was and calls [put_item] not once. *)
Theorem no_data_run (w : world) (trade_date now api_key : string)
    (store : gmap string attrs) :
  secret w = inr api_key ->
  (forall ticker, In ticker WATCHLIST ->
     (fetch_ticker ticker (upstream w ticker)).1 = None) ->
  (main w trade_date now store).1.1
    = Returned 200
        (NoData "No data — market closed or API unavailable" trade_date) /\
  (main w trade_date now store).1.2 = store /\
  writes (main w trade_date now store).2 = [].
Proof.
  intros Hkey Habsent. unfold main, get_api_key. rewrite Hkey.
  pose proof (fetch_all_absent w WATCHLIST Habsent) as Hall.
  pose proof (fetch_all_no_write w WATCHLIST) as Hnw.
  destruct (fetch_all w WATCHLIST) as [collected t1].
  simpl in Hall, Hnw. subst collected. simpl.
  repeat split. exact Hnw.
Qed.

Lemma no_data_run_witness :
  (main Sample.world_closed "2025-07-04" "2025-07-04T21:00:09+00:00" ∅).1.1
    = Returned 200
        (NoData "No data — market closed or API unavailable" "2025-07-04") /\
  (main Sample.world_closed "2025-07-04" "2025-07-04T21:00:09+00:00" ∅).1.2
    = ∅ /\
  writes
    (main Sample.world_closed "2025-07-04" "2025-07-04T21:00:09+00:00" ∅).2
    = [].
Proof.
  apply (no_data_run Sample.world_closed "2025-07-04"
           "2025-07-04T21:00:09+00:00" "key" ∅).
  - reflexivity.
  - intros ticker _. reflexivity.
Defined.

(** C6.  When the key cannot be retrieved the run returns status 500
    having done nothing but ask for the secret: no request, no write,
    the table as it was.  When [put_item] raises, its exception leaves
    [main], the table is as it was and [put_item] was called once. *)
Theorem fatal_failures (w : world) (trade_date now : string)
    (store : gmap string attrs) :
  (forall e, secret w = inl e ->
     main w trade_date now store
       = (Returned 500 (Text "Failed to retrieve API key"), store,
          [GetSecret])) /\
  (forall api_key e results failed_tickers,
     secret w = inr api_key ->
     (fetch_all w WATCHLIST).1 = inr (results, failed_tickers) ->
     results <> [] ->
     put_item_error w = Some e ->
     (main w trade_date now store).1.1 = Raised e /\
     (main w trade_date now store).1.2 = store /\
     length (writes (main w trade_date now store).2) = 1%nat).
Proof.
  split.
  - intros e Hkey. unfold main, get_api_key. now rewrite Hkey.
  - intros api_key e results failed_tickers Hkey Hres Hne Hput.
    unfold main, get_api_key. rewrite Hkey.
    pose proof (fetch_all_no_write w WATCHLIST) as Hnw.
    destruct (fetch_all w WATCHLIST) as [collected t1].
    simpl in Hres, Hnw. subst collected.
    destruct results as [|first rest]; [congruence|].
    unfold winner, py_max, write_winner. rewrite Hput. simpl.
    repeat split. rewrite writes_app, Hnw. reflexivity.
Qed.

Lemma fatal_failures_witness :
  main Sample.world_no_secret "2025-06-10" "2025-06-10T21:00:05+00:00" ∅
    = (Returned 500 (Text "Failed to retrieve API key"), ∅, [GetSecret]) /\
  (main Sample.world_no_write "2025-06-10" "2025-06-10T21:00:05+00:00" ∅).1.1
    = Raised (ClientError "ProvisionedThroughputExceeded").
Proof.
  split.
  - apply (proj1 (fatal_failures Sample.world_no_secret "2025-06-10"
                    "2025-06-10T21:00:05+00:00" ∅)
             (ClientError "AccessDeniedException")).
    reflexivity.
  - eapply (proj2 (fatal_failures Sample.world_no_write "2025-06-10"
                     "2025-06-10T21:00:05+00:00" ∅) "key"
              (ClientError "ProvisionedThroughputExceeded")).
    + reflexivity.
    + reflexivity.
    + discriminate.
    + reflexivity.
Defined.

(** A run in which a ticker gives a quote with an opening price of
    zero ends with [ZeroDivisionError], whatever the tickers before it
    gave: no write, and no request for the tickers after it. *)
Example text_day_run :
  main Sample.world_text "2025-06-10" "2025-06-10T21:00:05+00:00" ∅
    = (Raised ZeroDivisionError, ∅,
       [GetSecret; Request "AAPL" 1%nat; Sleep 1%Q;
        Request "MSFT" 1%nat; Sleep 1%Q]).
Proof. reflexivity. Qed.

(** ** Rounding *)

Lemma round_half_even_cases (x : Q) :
  let off := (inject_Z (round_half_even x) - x)%Q in
  (Qabs off <= 1 # 2)%Q /\
  ((Qabs off == 1 # 2)%Q -> Z.even (round_half_even x) = true).
Proof.
  unfold round_half_even.
  pose proof (Qfloor_le x) as Hlo. pose proof (Qlt_floor x) as Hhi.
  rewrite inject_Z_plus in Hhi. change (inject_Z 1) with 1%Q in Hhi.
  assert (Hstrict : forall a : Q,
            (- (1 # 2) < a)%Q -> (a < 1 # 2)%Q ->
            (Qabs a <= 1 # 2)%Q /\ ((Qabs a == 1 # 2)%Q -> False)).
  { intros a H1 H2. split.
    - apply Qabs_Qle_condition. split; lra.
    - intros He. assert (Hlt : (Qabs a < 1 # 2)%Q)
        by (apply Qabs_Qlt_condition; split; lra).
      rewrite He in Hlt. lra. }
  destruct (Qcompare_spec (x - inject_Z (Qfloor x)) (1 # 2)) as [He|Hl|Hg].
  - destruct (Z.even (Qfloor x)) eqn:Heven; cbv zeta.
    + split; [|intros _; exact Heven].
      apply Qabs_Qle_condition.
      set (f := inject_Z (Qfloor x)) in *. split; lra.
    + split.
      * rewrite inject_Z_plus. change (inject_Z 1) with 1%Q.
        apply Qabs_Qle_condition.
        set (f := inject_Z (Qfloor x)) in *. split; lra.
      * intros _. rewrite Z.even_add, Heven. reflexivity.
  - cbv zeta. set (f := inject_Z (Qfloor x)) in *.
    assert (Ha : (- (1 # 2) < f - x)%Q) by lra.
    assert (Hb : (f - x < 1 # 2)%Q) by lra.
    destruct (Hstrict _ Ha Hb) as [H1 H2].
    split; [exact H1|]. intros H. now destruct (H2 H).
  - cbv zeta. rewrite inject_Z_plus. change (inject_Z 1) with 1%Q.
    set (f := inject_Z (Qfloor x)) in *.
    assert (Ha : (- (1 # 2) < f + 1 - x)%Q) by lra.
    assert (Hb : (f + 1 - x < 1 # 2)%Q) by lra.
    destruct (Hstrict _ Ha Hb) as [H1 H2].
    split; [exact H1|]. intros H. now destruct (H2 H).
Qed.

(** [round(x, n)] rounds as the specification has it. *)
Lemma py_round_rounded (x : float) (n : nat) : rounded x n (py_round x n).
Proof.
  unfold rounded, py_round. destruct (exact x) as [q|]; [|reflexivity].
  exists (decimal_units q n). cbv zeta.
  destruct (round_half_even_cases
              (Qabs q * inject_Z (10 ^ Z.of_nat n))) as [Hnear Htie].
  split; [exact Hnear|]. split; [exact Htie|]. reflexivity.
Qed.

(** Nothing but [round] rounds so: the units are determined by the
    float. *)
Lemma rounded_py_round (x : float) (n : nat) (r : float) :
  rounded x n r -> r = py_round x n.
Proof.
  unfold rounded, py_round. destruct (exact x) as [q|]; [|trivial].
  intros (k & Hnear & Htie & ->). cbv zeta in *.
  set (t := (Qabs q * inject_Z (10 ^ Z.of_nat n))%Q) in *.
  enough (Hk : k = decimal_units q n) by now rewrite Hk.
  unfold decimal_units. fold t.
  destruct (round_half_even_cases t) as [Hnear' Htie'].
  cbv zeta in *. set (k' := round_half_even t) in *.
  apply Qabs_Qle_condition in Hnear as [Hlo Hhi].
  apply Qabs_Qle_condition in Hnear' as [Hlo' Hhi'].
  assert (Hup : (inject_Z k <= inject_Z (k' + 1))%Q).
  { rewrite inject_Z_plus. change (inject_Z 1) with 1%Q. lra. }
  assert (Hdown : (inject_Z k' <= inject_Z (k + 1))%Q).
  { rewrite inject_Z_plus. change (inject_Z 1) with 1%Q. lra. }
  rewrite <- Zle_Qle in Hup, Hdown.
  assert (Hcases : k = k' \/ k = k' + 1 \/ k = k' - 1) by lia.
  destruct Hcases as [H|[H|H]]; [exact H| |]; exfalso.
  - assert (Hk : (inject_Z k == inject_Z k' + 1)%Q).
    { rewrite H, inject_Z_plus. reflexivity. }
    assert (H1 : (inject_Z k - t == 1 # 2)%Q) by lra.
    assert (H2 : (inject_Z k' - t == - (1 # 2))%Q) by lra.
    assert (E1 : Z.even k = true).
    { apply Htie. rewrite H1. reflexivity. }
    assert (E2 : Z.even k' = true).
    { apply Htie'. rewrite H2. reflexivity. }
    rewrite H, Z.even_add, E2 in E1. discriminate.
  - assert (Hk : (inject_Z k == inject_Z k' - 1)%Q).
    { rewrite H. unfold Z.sub. rewrite inject_Z_plus. reflexivity. }
    assert (H1 : (inject_Z k - t == - (1 # 2))%Q) by lra.
    assert (H2 : (inject_Z k' - t == 1 # 2)%Q) by lra.
    assert (E1 : Z.even k = true).
    { apply Htie. rewrite H1. reflexivity. }
    assert (E2 : Z.even k' = true).
    { apply Htie'. rewrite H2. reflexivity. }
    rewrite H, Z.even_sub, E2 in E1. discriminate.
Qed.

(** ** The query handler *)

Lemma insert_desc_perm (x : Query.mover) (l : list Query.mover) :
  Permutation (Query.insert_desc x l) (x :: l).
Proof.
  induction l as [|y l IH]; simpl; [reflexivity|].
  destruct (String.leb _ _); [reflexivity|].
  rewrite IH. apply perm_swap.
Qed.

Lemma sorted_desc_perm (l : list Query.mover) :
  Permutation (Query.sorted_desc l) l.
Proof.
  induction l as [|x l IH]; simpl; [reflexivity|].
  rewrite insert_desc_perm. now constructor.
Qed.

Lemma insert_desc_sorted (x : Query.mover) (l : list Query.mover) :
  StronglySorted newest_first l ->
  StronglySorted newest_first (Query.insert_desc x l).
Proof.
  induction l as [|y l IH]; intros Hs; simpl.
  - constructor; constructor.
  - inversion Hs as [|? ? Hs' Hall]; subst.
    destruct (String.leb (Query.m_date y) (Query.m_date x)) eqn:Hle.
    + assert (Hyx : newest_first x y).
      { unfold newest_first, String.le. now rewrite Hle. }
      constructor; [exact Hs|]. constructor; [exact Hyx|].
      eapply Forall_impl; [exact Hall|]. intros z Hz.
      unfold newest_first in *. now transitivity (Query.m_date y).
    + constructor; [now apply IH|].
      apply (Permutation_Forall (Permutation_sym (insert_desc_perm x l))).
      constructor; [|exact Hall].
      unfold newest_first, String.le.
      destruct (String.leb_total (Query.m_date x) (Query.m_date y))
        as [H|H]; [now rewrite H | congruence].
Qed.

Lemma sorted_desc_sorted (l : list Query.mover) :
  StronglySorted newest_first (Query.sorted_desc l).
Proof.
  induction l as [|x l IH]; simpl; [constructor|].
  now apply insert_desc_sorted.
Qed.

(** What a formatted item says about the item it came from. *)
Lemma format_item_inr (it : Query.item) (m : Query.mover) :
  Query.format_item it = inr m ->
  Query.i_date it = Some (Query.m_date m) /\
  Query.i_ticker it = Some (Query.m_ticker m) /\
  exists pc cp,
    Query.float_or_zero (Query.i_percent_change it) = inr pc /\
    Query.float_or_zero (Query.i_closing_price it) = inr cp /\
    Query.m_percent_change m = py_round pc 2 /\
    Query.m_closing_price m = py_round cp 2.
Proof.
  unfold Query.format_item.
  destruct (Query.i_date it) as [d|]; [|discriminate].
  destruct (Query.i_ticker it) as [t|]; [|discriminate].
  destruct (Query.float_or_zero (Query.i_percent_change it)) as [e|pc];
    [discriminate|].
  destruct (Query.float_or_zero (Query.i_closing_price it)) as [e|cp];
    [discriminate|].
  intros H. injection H as <-. simpl. eauto 8.
Qed.

Lemma format_items_inr (items : list Query.item) : forall ms,
  Query.format_items items = inr ms ->
  Forall2 (fun it m => Query.format_item it = inr m) items ms.
Proof.
  induction items as [|it items IH]; simpl; intros ms H.
  - injection H as <-. constructor.
  - destruct (Query.format_item it) as [e|m] eqn:Hit; [discriminate|].
    destruct (Query.format_items items) as [e|ms']; [discriminate|].
    injection H as <-. constructor; [exact Hit | now apply IH].
Qed.

Lemma format_items_all (items : list Query.item) :
  Forall (fun it => exists m, Query.format_item it = inr m) items ->
  exists ms, Query.format_items items = inr ms.
Proof.
  induction 1 as [|it items [m Hm] _ [ms Hms]]; simpl.
  - now exists [].
  - rewrite Hm, Hms. now exists (m :: ms).
Qed.

Lemma format_items_some (items : list Query.item) :
  Exists (fun it => exists e, Query.format_item it = inl e) items ->
  exists e, Query.format_items items = inl e.
Proof.
  induction 1 as [it items [e He]|it items _ [e He]]; simpl.
  - rewrite He. now exists e.
  - destruct (Query.format_item it) as [e'|m]; [now exists e'|].
    rewrite He. now exists e.
Qed.

(** The handler on a request that is not a preflight: one batch read of
    the seven dates, then the formatted and sorted items, or the 500
    response for the exception met on the way. *)
Lemma main_get (ev : Query.event) (db : Query.backend) (today : Z) :
  Query.httpMethod ev <> Some "OPTIONS" ->
  Query.main ev db today =
    (match db (Query.get_date_range today Query.DAYS_TO_RETURN) with
     | inl e => error_response e
     | inr items =>
       match Query.format_items items with
       | inl e => error_response e
       | inr ms => ok_response (Query.sorted_desc ms)
       end
     end,
     [Query.get_date_range today Query.DAYS_TO_RETURN]).
Proof.
  intros Hget. unfold Query.main, Query.serve.
  rewrite bool_decide_eq_false_2 by exact Hget.
  change (Query.query_movers db
            (Query.get_date_range today Query.DAYS_TO_RETURN))
    with (db (Query.get_date_range today Query.DAYS_TO_RETURN),
          [Query.get_date_range today Query.DAYS_TO_RETURN]).
  cbv iota beta.
  destruct (db _) as [e|items]; [reflexivity|].
  destruct (Query.format_items items) as [e|ms]; reflexivity.
Qed.

(** The items the table answers with are the stored records of the keys
    that were both asked for and served. *)
Lemma batch_get_item_elem (store : gmap string attrs)
    (served keys : list string) (items : list Query.item)
    (it : Query.item) :
  Query.batch_get_item store served keys = inr items ->
  it ∈ items <->
  exists d, d ∈ served /\ d ∈ keys /\ Query.table_item store d = Some it.
Proof.
  unfold Query.batch_get_item. intros H. injection H as <-.
  rewrite list_elem_of_omap. split.
  - intros (d & Hd & Hit). exists d. split; [exact Hd|].
    destruct (bool_decide (d ∈ keys)) eqn:Hk; [|discriminate].
    apply bool_decide_eq_true in Hk. now split.
  - intros (d & Hd & Hk & Hit). exists d. split; [exact Hd|].
    now rewrite bool_decide_eq_true_2.
Qed.

Lemma table_item_some (store : gmap string attrs) (d : string)
    (it : Query.item) :
  Query.table_item store d = Some it ->
  exists a, store !! d = Some a /\
    it = {| Query.i_date := Some d; Query.i_ticker := a_ticker a;
            Query.i_percent_change := a_percent_change a;
            Query.i_closing_price := a_closing_price a |}.
Proof.
  unfold Query.table_item. destruct (store !! d) as [a|]; [|discriminate].
  intros H. injection H as <-. now exists a.
Qed.

Lemma float_or_zero_number (v : option attr_value) :
  is_number v -> exists q, Query.float_or_zero v = inr q.
Proof.
  intros Hv. destruct v as [[q|text]|]; simpl; eauto.
  now destruct (Hv text).
Qed.

Lemma format_item_readable (d : string) (a : attrs) :
  readable a ->
  exists m,
    Query.format_item
      {| Query.i_date := Some d; Query.i_ticker := a_ticker a;
         Query.i_percent_change := a_percent_change a;
         Query.i_closing_price := a_closing_price a |} = inr m.
Proof.
  intros ([t Ht] & Hpc & Hcp). unfold Query.format_item. simpl. rewrite Ht.
  destruct (float_or_zero_number _ Hpc) as [pc ->].
  destruct (float_or_zero_number _ Hcp) as [cp ->].
  eauto.
Qed.

(** C7.  On a GET the handler reads the table once, for the seven dates
    from today back to today - 6.  Whatever the table holds, a body of
    movers reports their number as its count, lists them with dates
    descending, and holds only records stored under one of the seven
    dates.  When the records under those dates are readable the
    response is the 200 one, and it holds every record that was
    served. *)
Theorem recent_movers (ev : Query.event) (store : gmap string attrs)
    (served : list string) (today : Z) :
  Query.httpMethod ev <> Some "OPTIONS" ->
  let r := Query.main ev (Query.batch_get_item store served) today in
  r.2 = [[Query.isoformat (today - 0); Query.isoformat (today - 1);
          Query.isoformat (today - 2); Query.isoformat (today - 3);
          Query.isoformat (today - 4); Query.isoformat (today - 5);
          Query.isoformat (today - 6)]] /\
  (forall movers count,
     Query.body_of r.1 = Query.Movers movers count ->
     count = length movers /\
     StronglySorted newest_first movers /\
     Forall (fun m =>
               Query.m_date m ∈ Query.get_date_range today 7 /\
               exists a, store !! Query.m_date m = Some a /\
                         a_ticker a = Some (Query.m_ticker m)) movers) /\
  ((forall d a, d ∈ Query.get_date_range today 7 ->
      store !! d = Some a -> readable a) ->
   exists movers,
     r.1 = ok_response movers /\
     forall d, d ∈ served -> d ∈ Query.get_date_range today 7 ->
       is_Some (store !! d) ->
       exists m, m ∈ movers /\ Query.m_date m = d).
Proof.
  intros Hget r. subst r. rewrite (main_get _ _ _ Hget).
  change Query.DAYS_TO_RETURN with 7%nat.
  set (keys := Query.get_date_range today 7).
  destruct (Query.batch_get_item store served keys) as [e|items] eqn:Hdb;
    [discriminate|].
  pose proof (fun it => batch_get_item_elem store served keys items it Hdb)
    as Helem.
  simpl fst. simpl snd.
  split; [reflexivity|]. split.
  - intros movers count Hbody.
    destruct (Query.format_items items) as [e|ms] eqn:Hfmt;
      [discriminate|].
    simpl in Hbody. injection Hbody as <- <-.
    split; [reflexivity|]. split; [apply sorted_desc_sorted|].
    apply Forall_forall. intros m Hm.
    rewrite sorted_desc_perm in Hm.
    apply list_elem_of_lookup in Hm as [i Hi].
    destruct (Forall2_lookup_r _ _ _ _ _ (format_items_inr _ _ Hfmt) Hi)
      as (it & Hit & Hm).
    assert (Hin : it ∈ items) by (apply list_elem_of_lookup; eauto).
    apply Helem in Hin as (d & _ & Hk & Htab).
    apply table_item_some in Htab as (a & Ha & ->).
    apply format_item_inr in Hm as (Hd & Ht & _). simpl in Hd, Ht.
    injection Hd as Hd. rewrite <- Hd. split; [exact Hk|].
    exists a. now split.
  - intros Hreadable.
    assert (Hall : Forall (fun it => exists m, Query.format_item it = inr m)
                     items).
    { apply Forall_forall. intros it Hin.
      apply Helem in Hin as (d & _ & Hk & Htab).
      apply table_item_some in Htab as (a & Ha & ->).
      apply format_item_readable. now apply (Hreadable d). }
    destruct (format_items_all _ Hall) as [ms Hfmt]. rewrite Hfmt.
    exists (Query.sorted_desc ms). split; [reflexivity|].
    intros d Hs Hk [a Ha].
    assert (Hin : {| Query.i_date := Some d; Query.i_ticker := a_ticker a;
                     Query.i_percent_change := a_percent_change a;
                     Query.i_closing_price := a_closing_price a |} ∈ items).
    { apply Helem. exists d. split; [exact Hs|]. split; [exact Hk|].
      unfold Query.table_item. now rewrite Ha. }
    apply list_elem_of_lookup in Hin as [i Hi].
    destruct (Forall2_lookup_l _ _ _ _ _ (format_items_inr _ _ Hfmt) Hi)
      as (m & Hm & Hitm).
    exists m. split.
    + rewrite sorted_desc_perm. apply list_elem_of_lookup. eauto.
    + apply format_item_inr in Hitm as (Hd & _). simpl in Hd. congruence.
Qed.

Lemma recent_movers_witness :
  exists movers,
    (Query.main Sample.get
       (Query.batch_get_item Sample.two_days Sample.oldest_first)
       739254).1 = ok_response movers /\
    forall d, d ∈ Sample.oldest_first ->
      d ∈ Query.get_date_range 739254 7 ->
      is_Some (Sample.two_days !! d) ->
      exists m, m ∈ movers /\ Query.m_date m = d.
Proof.
  refine (proj2 (proj2 (recent_movers Sample.get Sample.two_days
                          Sample.oldest_first 739254 _)) _).
  - discriminate.
  - intros d a Hd Ha. vm_compute in Hd.
    repeat (apply elem_of_cons in Hd as [-> | Hd]);
      [| | | | | | | now apply elem_of_nil in Hd];
      vm_compute in Ha; try discriminate;
      injection Ha as <-;
      (split; [eexists; reflexivity | split; intros text; discriminate]).
Defined.

(** The block under [try] on a request that is not a preflight. *)
Lemma serve_eq (db : Query.backend) (today : Z) :
  Query.serve db today =
    (match db (Query.get_date_range today Query.DAYS_TO_RETURN) with
     | inl e => inl e
     | inr items =>
       match Query.format_items items with
       | inl e => inl e
       | inr ms => inr (ok_response (Query.sorted_desc ms))
       end
     end,
     [Query.get_date_range today Query.DAYS_TO_RETURN]).
Proof.
  unfold Query.serve.
  change (Query.query_movers db
            (Query.get_date_range today Query.DAYS_TO_RETURN))
    with (db (Query.get_date_range today Query.DAYS_TO_RETURN),
          [Query.get_date_range today Query.DAYS_TO_RETURN]).
  cbv iota beta.
  destruct (db _) as [e|items]; [reflexivity|].
  destruct (Query.format_items items) as [e|ms]; reflexivity.
Qed.

(** C9.  When the block under [try] raises while a GET is served, the
    handler returns status 500 with the four CORS headers, a body whose
    error text is "Internal server error" next to the text of the
    exception, and the table was read once. *)
Theorem query_failure_is_500 (ev : Query.event) (db : Query.backend)
    (today : Z) (e : exn) :
  Query.httpMethod ev <> Some "OPTIONS" ->
  (Query.serve db today).1 = inl e ->
  (Query.main ev db today).1 =
    {| Query.statusCode := 500;
       Query.headers :=
         [("Access-Control-Allow-Origin", "*");
          ("Access-Control-Allow-Headers", "Content-Type");
          ("Access-Control-Allow-Methods", "GET,OPTIONS");
          ("Content-Type", "application/json")];
       Query.body_of := Query.Error "Internal server error" (str_exn e) |} /\
  (Query.main ev db today).2
    = [Query.get_date_range today Query.DAYS_TO_RETURN].
Proof.
  intros Hget Hraise. rewrite serve_eq in Hraise.
  rewrite (main_get _ _ _ Hget). simpl in *.
  split; [|reflexivity].
  destruct (db _) as [e'|items].
  - now injection Hraise as ->.
  - destruct (Query.format_items items) as [e'|ms]; [|discriminate].
    now injection Hraise as ->.
Qed.

Lemma query_failure_is_500_witness :
  (Query.main Sample.get Sample.unavailable 739254).1 =
    {| Query.statusCode := 500;
       Query.headers :=
         [("Access-Control-Allow-Origin", "*");
          ("Access-Control-Allow-Headers", "Content-Type");
          ("Access-Control-Allow-Methods", "GET,OPTIONS");
          ("Content-Type", "application/json")];
       Query.body_of :=
         Query.Error "Internal server error" "ResourceNotFoundException" |}.
Proof.
  refine (proj1 (query_failure_is_500 Sample.get Sample.unavailable 739254
                   (ClientError "ResourceNotFoundException") _ _)).
  - discriminate.
  - reflexivity.
Defined.

Lemma format_item_missing (it : Query.item) :
  Query.i_date it = None \/ Query.i_ticker it = None ->
  Query.format_item it = inl (KeyError "date") \/
  Query.format_item it = inl (KeyError "ticker").
Proof.
  unfold Query.format_item. intros [Hd|Ht].
  - rewrite Hd. now left.
  - destruct (Query.i_date it); [rewrite Ht; now right | now left].
Qed.

Lemma py_round_zero : py_round 0 2 = 0%float.
Proof. reflexivity. Qed.

(** Missing numeric attributes come out as zero. *)
Lemma format_item_defaults (it : Query.item) (m : Query.mover) :
  Query.format_item it = inr m ->
  (Query.i_percent_change it = None ->
   Query.m_percent_change m = 0%float) /\
  (Query.i_closing_price it = None -> Query.m_closing_price m = 0%float).
Proof.
  intros H. apply format_item_inr in H
    as (_ & _ & pc & cp & Hpc & Hcp & -> & ->).
  split; intros Hnone; [rewrite Hnone in Hpc | rewrite Hnone in Hcp];
    simpl in *; [injection Hpc as <- | injection Hcp as <-];
    apply py_round_zero.
Qed.

(** C10.  When the batch read answers with an item that has no [date]
    or no [ticker], the response is the 500 one, whatever the other
    items are.  When every item has both and its numeric attributes are
    numbers or missing, the response is the 200 one with one mover per
    item, and a missing numeric attribute appears as zero. *)
Theorem missing_key_attribute_fails (ev : Query.event) (db : Query.backend)
    (today : Z) (items : list Query.item) :
  Query.httpMethod ev <> Some "OPTIONS" ->
  db (Query.get_date_range today Query.DAYS_TO_RETURN) = inr items ->
  (Exists (fun it => Query.i_date it = None \/ Query.i_ticker it = None)
     items ->
   Query.statusCode (Query.main ev db today).1 = 500 /\
   Query.headers (Query.main ev db today).1 = Query.CORS_HEADERS /\
   exists message,
     Query.body_of (Query.main ev db today).1
       = Query.Error "Internal server error" message) /\
  (Forall (fun it => is_Some (Query.i_date it) /\
                     is_Some (Query.i_ticker it) /\
                     is_number (Query.i_percent_change it) /\
                     is_number (Query.i_closing_price it)) items ->
   exists formatted,
     Forall2 (fun it m =>
                Query.format_item it = inr m /\
                (Query.i_percent_change it = None ->
                 Query.m_percent_change m = 0%float) /\
                (Query.i_closing_price it = None ->
                 Query.m_closing_price m = 0%float)) items formatted /\
     (Query.main ev db today).1
       = ok_response (Query.sorted_desc formatted) /\
     Permutation (Query.sorted_desc formatted) formatted).
Proof.
  intros Hget Hdb. rewrite (main_get _ _ _ Hget), Hdb. simpl fst. split.
  - intros Hbad.
    assert (Hex : Exists (fun it => exists e, Query.format_item it = inl e)
                    items).
    { eapply Exists_impl; [exact Hbad|]. intros it Hit.
      destruct (format_item_missing it Hit) as [H|H]; eauto. }
    destruct (format_items_some _ Hex) as [e ->]. simpl. eauto.
  - intros Hgood.
    assert (Hall : Forall (fun it => exists m, Query.format_item it = inr m)
                     items).
    { eapply Forall_impl; [exact Hgood|].
      intros it ([d Hd] & [t Ht] & Hpc & Hcp).
      unfold Query.format_item. rewrite Hd, Ht.
      destruct (float_or_zero_number _ Hpc) as [pc ->].
      destruct (float_or_zero_number _ Hcp) as [cp ->]. eauto. }
    destruct (format_items_all _ Hall) as [ms Hfmt]. rewrite Hfmt.
    exists ms. split; [|split; [reflexivity | apply sorted_desc_perm]].
    eapply Forall2_impl; [exact (format_items_inr _ _ Hfmt)|].
    intros it m Hm. split; [exact Hm | now apply format_item_defaults].
Qed.

Lemma missing_key_attribute_fails_witness :
  Query.statusCode (Query.main Sample.get Sample.nameless 739254).1 = 500 /\
  exists formatted,
    (Query.main Sample.get Sample.bare 739254).1
      = ok_response (Query.sorted_desc formatted).
Proof.
  split.
  - refine (proj1 (proj1 (missing_key_attribute_fails Sample.get
                            Sample.nameless 739254 _ _ eq_refl) _)).
    + discriminate.
    + apply Exists_cons_hd. now right.
  - destruct (proj2 (missing_key_attribute_fails Sample.get Sample.bare
                       739254 _ ltac:(discriminate) eq_refl))
      as (formatted & _ & Hresp & _).
    + repeat constructor; try (eexists; reflexivity);
        intros text; discriminate.
    + now exists formatted.
Defined.

(** ** Rounding on write and on read *)

(** C8.  A successful [write_winner] stores the percent change rounded
    to four fractional digits and the closing price rounded to two, as
    the texts of the floats [round] gives.  [format_item] rounds both
    numeric attributes of any item to two fractional digits.  A record
    read back after the write therefore carries the percent change
    rounded to four digits and then to two. *)
Theorem rounding_on_write_and_read (w : world)
    (trade_date ticker now : string) (pct_change closing_price : float)
    (store : gmap string attrs) :
  put_item_error w = None ->
  let store' :=
    (write_winner w trade_date ticker pct_change closing_price now
       store).1.2 in
  (exists a stored_change stored_price,
     store' !! trade_date = Some a /\
     a_percent_change a = Some (Num stored_change) /\
     a_closing_price a = Some (Num stored_price) /\
     stored_change = py_round pct_change 4 /\
     stored_price = py_round closing_price 2 /\
     rounded pct_change 4 stored_change /\
     rounded closing_price 2 stored_price) /\
  (forall it m pc cp,
     Query.format_item it = inr m ->
     Query.i_percent_change it = Some (Num pc) ->
     Query.i_closing_price it = Some (Num cp) ->
     Query.m_percent_change m = py_round pc 2 /\
     Query.m_closing_price m = py_round cp 2 /\
     rounded pc 2 (Query.m_percent_change m) /\
     rounded cp 2 (Query.m_closing_price m)) /\
  (exists it,
     Query.table_item store' trade_date = Some it /\
     Query.format_item it =
       inr {| Query.m_date := trade_date; Query.m_ticker := ticker;
              Query.m_percent_change := py_round (py_round pct_change 4) 2;
              Query.m_closing_price :=
                py_round (py_round closing_price 2) 2 |}).
Proof.
  intros Hput store'. subst store'. unfold write_winner. rewrite Hput.
  simpl. unfold put_item. split; [|split].
  - do 3 eexists. rewrite lookup_insert_eq. split; [reflexivity|].
    repeat (split; [reflexivity|]). split; apply py_round_rounded.
  - intros it m pc cp Hm Hpc Hcp.
    apply format_item_inr in Hm as (_ & _ & pc' & cp' & Hpc' & Hcp' & -> & ->).
    rewrite Hpc in Hpc'. rewrite Hcp in Hcp'. simpl in *.
    injection Hpc' as <-. injection Hcp' as <-.
    repeat (split; [reflexivity|]). split; apply py_round_rounded.
  - eexists. unfold Query.table_item. rewrite lookup_insert_eq.
    split; reflexivity.
Qed.

Lemma rounding_on_write_and_read_witness :
  exists it,
    Query.table_item
      (write_winner Sample.world_ok "2025-06-10" "TSLA" 0.37496 410.0549
         "2025-06-10T21:00:05+00:00" ∅).1.2
      "2025-06-10" = Some it /\
    Query.format_item it =
      inr {| Query.m_date := "2025-06-10"; Query.m_ticker := "TSLA";
             Query.m_percent_change := py_round (py_round 0.37496 4) 2;
             Query.m_closing_price := py_round (py_round 410.0549 2) 2 |}.
Proof.
  refine (proj2 (proj2
            (rounding_on_write_and_read Sample.world_ok "2025-06-10" "TSLA"
               "2025-06-10T21:00:05+00:00" 0.37496 410.0549 ∅ _))).
  reflexivity.
Defined.

(** The two roundings do not collapse into one: 0.37496 is stored as
    0.375 and shown as 0.38, where one rounding to two digits gives
    0.37. *)
Example rounding_twice_differs :
  py_round 0.37496 4 = 0.375%float /\
  py_round (py_round 0.37496 4) 2 = 0.38%float /\
  py_round 0.37496 2 = 0.37%float.
Proof. repeat split; reflexivity. Qed.

(** [round] works on the float, not on the decimal it prints as: the
    change of 1000 to 1026.75 is the float nearest to 2.675, which lies
    below it; it is stored as 2.675 and shown as 2.67.  The change of
    80 to 82.875 is the float next below 3.59375 and is stored as
    3.5937.  Signed zeros, infinities and NaN pass through. *)
Example rounding_of_floats :
  py_round 2.675 4 = 2.675%float /\
  py_round 2.675 2 = 2.67%float /\
  py_round 3.5937499999999996 4 = 3.5937%float /\
  py_round (-0.001) 2 = (-0)%float /\
  py_round infinity 2 = infinity /\
  py_round neg_infinity 4 = neg_infinity /\
  is_nan (py_round nan 4) = true.
Proof. repeat split; reflexivity. Qed.

(** * Further properties of the ingestion handler *)

Import Run.

(** A quote comes out of the 200 branch only from a first bar with both
    prices there, an opening value that does not equal zero, and two
    values [float] takes. *)
Lemma read_bar_some (results : option (list bar)) (q : quote) :
  read_bar results = Some q ->
  exists (b : bar) (rest : list bar) (o c : json),
    results = Some (b :: rest) /\
    py_or (bar_o b) (bar_O b) = Some o /\
    py_or (bar_c b) (bar_C b) = Some c /\
    equals_zero o = false /\
    to_float o = Some (quote_O q) /\
    to_float c = Some (quote_C q).
Proof.
  destruct results as [[|b rest]|]; simpl; try discriminate.
  destruct (py_or (bar_o b) (bar_O b)) as [o|] eqn:Ho; [|discriminate].
  destruct (py_or (bar_c b) (bar_C b)) as [c|] eqn:Hc; [|discriminate].
  destruct (equals_zero o) eqn:Hz; [discriminate|].
  destruct (to_float o) as [fo|] eqn:Hfo; [|discriminate].
  destruct (to_float c) as [fc|] eqn:Hfc; [|discriminate].
  intros H. injection H as <-. exists b, rest, o, c. now repeat split.
Qed.

Lemma settled_some (r : reply) (q : quote) :
  settled r = Some q ->
  exists results, r = Http 200 results /\ read_bar results = Some q.
Proof.
  destruct r as [status_code results| | |]; try discriminate.
  unfold settled. destruct status_code as [|p|p]; try discriminate.
  do 8 (destruct p as [p|p|]; try discriminate).
  intros H. now exists results.
Qed.

(** A quote the loop returns is the one read from a 200 reply, and all
    replies before that one were of the retried kind. *)
Lemma fetch_loop_some (ticker : string) (upstream : nat -> reply)
    (remaining : nat) : forall (attempt : nat) (q : quote),
  (fetch_loop ticker upstream attempt remaining).1 = Some q ->
  exists (k : nat) results,
    (attempt <= k < attempt + remaining)%nat /\
    upstream k = Http 200 results /\
    read_bar results = Some q /\
    (forall j : nat, (attempt <= j < k)%nat -> retried (upstream j) = true).
Proof.
  induction remaining as [|n IH]; intros attempt q; [discriminate|].
  simpl. rewrite attempt_once_policy.
  destruct (retried (upstream attempt)) eqn:Hr.
  - specialize (IH (S attempt) q).
    destruct (fetch_loop ticker upstream (S attempt) n) as [result trace].
    simpl in *. intros Hq.
    destruct (IH Hq) as (k & results & Hk & Hup & Hread & Hbefore).
    exists k, results. split; [lia|]. split; [exact Hup|].
    split; [exact Hread|]. intros j Hj.
    destruct (Nat.eq_dec j attempt) as [->|Hne]; [exact Hr|].
    apply Hbefore. lia.
  - simpl. intros Hq.
    destruct (settled_some _ _ Hq) as (results & Hup & Hread).
    exists attempt, results. split; [lia|]. split; [exact Hup|].
    split; [exact Hread|]. intros j Hj. lia.
Qed.

(** X1.  Whenever [fetch_ticker] returns a quote, it was read from the
    first bar of a 200 reply received within the [MAX_RETRIES + 1]
    attempts, every earlier reply having been of the retried kind: both
    prices were there, under the lower-case key or else the upper-case
    one, the opening value did not equal zero, and the quote holds what
    [float] made of the two values. *)
Theorem fetch_ticker_quote_sound (ticker : string)
    (upstream : nat -> reply) (q : quote) :
  (fetch_ticker ticker upstream).1 = Some q ->
  exists (k : nat) (b : bar) (rest : list bar) (o c : json),
    (1 <= k <= MAX_RETRIES + 1)%nat /\
    upstream k = Http 200 (Some (b :: rest)) /\
    py_or (bar_o b) (bar_O b) = Some o /\
    py_or (bar_c b) (bar_C b) = Some c /\
    equals_zero o = false /\
    to_float o = Some (quote_O q) /\
    to_float c = Some (quote_C q) /\
    (forall j : nat, (1 <= j < k)%nat -> retried (upstream j) = true).
Proof.
  intros Hq. unfold fetch_ticker in Hq.
  destruct (fetch_loop_some _ _ _ _ _ Hq)
    as (k & results & Hk & Hup & Hread & Hbefore).
  destruct (read_bar_some _ _ Hread)
    as (b & rest & o & c & -> & Ho & Hc & Hz & Hfo & Hfc).
  exists k, b, rest, o, c. split; [lia|]. now repeat split.
Qed.

Lemma fetch_ticker_quote_sound_witness :
  exists (k : nat) (b : bar) (rest : list bar) (o c : json),
    (1 <= k <= MAX_RETRIES + 1)%nat /\
    Sample.quiet_day "AAPL" k = Http 200 (Some (b :: rest)) /\
    py_or (bar_o b) (bar_O b) = Some o /\
    py_or (bar_c b) (bar_C b) = Some c /\
    equals_zero o = false /\
    to_float o = Some 100%float /\
    to_float c = Some 101%float /\
    (forall j : nat, (1 <= j < k)%nat ->
       retried (Sample.quiet_day "AAPL" j) = true).
Proof.
  apply (fetch_ticker_quote_sound "AAPL" (Sample.quiet_day "AAPL")
           {| quote_O := 100; quote_C := 101 |}).
  reflexivity.
Defined.

(** The opening price of a quote can be zero all the same: the text
    ["0"] is truthy and does not equal the number zero, and [float]
    reads it as 0.0. *)
Example text_zero_quote :
  fetch_ticker "MSFT" (Sample.text_day "MSFT")
    = (Some {| quote_O := 0; quote_C := 5 |}, [Request "MSFT" 1%nat]) /\
  calculate_pct_change 0 5 = inl ZeroDivisionError.
Proof. split; reflexivity. Qed.

(** An opening value sent as a JSON float gives a quote the change of
    which can be computed. *)
Lemma float_open_divides (b : bar) (rest : list bar) (x : float)
    (q : quote) :
  py_or (bar_o b) (bar_O b) = Some (JFloat x) ->
  read_bar (Some (b :: rest)) = Some q ->
  exists pct, calculate_pct_change (quote_O q) (quote_C q) = inr pct.
Proof.
  intros Ho Hq. rewrite read_bar_first, Ho in Hq.
  destruct (py_or (bar_c b) (bar_C b)) as [c|]; [|discriminate].
  simpl in Hq. destruct (x =? 0)%float eqn:Hx; [discriminate|].
  destruct (to_float c) as [fc|]; [|discriminate].
  injection Hq as <-. unfold calculate_pct_change. simpl. rewrite Hx.
  eauto.
Qed.

Lemma has_quote_some (w : world) (ticker : string) (q : quote) :
  quote_of w ticker = Some q -> has_quote w ticker = true.
Proof. unfold has_quote. now intros ->. Qed.

Lemma has_quote_none (w : world) (ticker : string) :
  quote_of w ticker = None ->
  has_quote w ticker = false /\ divides_by_zero w ticker = false.
Proof. unfold has_quote, divides_by_zero. now intros ->. Qed.

Lemma divides_by_zero_some (w : world) (ticker : string) (q : quote) :
  quote_of w ticker = Some q ->
  divides_by_zero w ticker = (quote_O q =? 0)%float.
Proof. unfold divides_by_zero. now intros ->. Qed.

(** What the loop over the tickers leaves when it runs to its end: the
    tickers of the collected entries and the failed tickers, in the
    order of the input, and the quote behind each entry. *)
Lemma fetch_all_inr (w : world) (tickers : list string) :
  forall results failed_tickers,
  (fetch_all w tickers).1 = inr (results, failed_tickers) ->
  Forall (fun t => divides_by_zero w t = false) tickers /\
  map e_ticker results = List.filter (has_quote w) tickers /\
  failed_tickers = List.filter (fun t => negb (has_quote w t)) tickers /\
  Forall (fun e => exists q,
            quote_of w (e_ticker e) = Some q /\
            e = entry_of (e_ticker e) q /\
            (quote_O q =? 0)%float = false) results.
Proof.
  induction tickers as [|ticker tickers IH]; intros results failed_tickers.
  - simpl. intros H. injection H as <- <-. repeat split; constructor.
  - rewrite fetch_all_cons. cbv zeta. simpl List.filter.
    destruct (quote_of w ticker) as [q|] eqn:Hq.
    + rewrite (has_quote_some _ _ _ Hq).
      destruct (quote_O q =? 0)%float eqn:Hz; [discriminate|].
      cbn [fst negb].
      destruct ((fetch_all w tickers).1) as [e|[results' failed']];
        [discriminate|].
      intros H. injection H as <- <-.
      destruct (IH _ _ eq_refl) as (Hd & Hr & Hf & He).
      split; [constructor; trivial;
              now rewrite (divides_by_zero_some _ _ _ Hq)|].
      split; [simpl; now rewrite Hr|]. split; [exact Hf|].
      constructor; [|exact He]. exists q. now repeat split.
    + destruct (has_quote_none _ _ Hq) as [Hh Hd0]. rewrite Hh.
      cbn [fst negb].
      destruct ((fetch_all w tickers).1) as [e|[results' failed']];
        [discriminate|].
      intros H. injection H as <- <-.
      destruct (IH _ _ eq_refl) as (Hd & Hr & Hf & He).
      split; [now constructor|]. split; [exact Hr|].
      split; [now rewrite Hf | exact He].
Qed.

(** What the loop leaves when it does not run to its end: the
    exception of the division, raised at the first ticker whose quote
    has an opening price of zero. *)
Lemma fetch_all_inl (w : world) (tickers : list string) (e : exn) :
  (fetch_all w tickers).1 = inl e ->
  e = ZeroDivisionError /\
  exists before ticker after,
    tickers = before ++ ticker :: after /\
    Forall (fun t => divides_by_zero w t = false) before /\
    divides_by_zero w ticker = true.
Proof.
  induction tickers as [|ticker tickers IH]; [discriminate|].
  rewrite fetch_all_cons. cbv zeta.
  destruct (quote_of w ticker) as [q|] eqn:Hq.
  - destruct (quote_O q =? 0)%float eqn:Hz; cbn [fst].
    + intros H. injection H as <-. split; [reflexivity|].
      exists [], ticker, tickers. split; [reflexivity|].
      split; [constructor|].
      now rewrite (divides_by_zero_some _ _ _ Hq).
    + destruct ((fetch_all w tickers).1) as [e'|[results' failed']];
        [|discriminate].
      intros H. injection H as <-.
      destruct (IH eq_refl) as (He & before & t & after & -> & Hb & Ht).
      split; [exact He|]. exists (ticker :: before), t, after.
      split; [reflexivity|]. split; [|exact Ht].
      constructor; [|exact Hb].
      now rewrite (divides_by_zero_some _ _ _ Hq).
  - destruct (has_quote_none _ _ Hq) as [_ Hd0]. cbn [fst].
    destruct ((fetch_all w tickers).1) as [e'|[results' failed']];
      [|discriminate].
    intros H. injection H as <-.
    destruct (IH eq_refl) as (He & before & t & after & -> & Hb & Ht).
    split; [exact He|]. exists (ticker :: before), t, after.
    split; [reflexivity|]. split; [|exact Ht]. now constructor.
Qed.

(** X3.  The loop of [main] over the tickers either runs to its end or
    stops with [ZeroDivisionError] at the first ticker whose quote has
    an opening price of zero.  When it runs to its end it has sorted
    the tickers in two lists that keep the order of the input: the
    tickers that gave a quote, each with the entry computed from its
    quote, and the tickers that did not; no ticker is lost or counted
    twice. *)
Theorem fetch_all_partition (w : world) (tickers : list string) :
  match (fetch_all w tickers).1 with
  | inr (results, failed_tickers) =>
    Forall (fun t => divides_by_zero w t = false) tickers /\
    map e_ticker results = List.filter (has_quote w) tickers /\
    failed_tickers = List.filter (fun t => negb (has_quote w t)) tickers /\
    (length results + length failed_tickers = length tickers)%nat /\
    Forall (fun e => exists q,
              quote_of w (e_ticker e) = Some q /\
              e = entry_of (e_ticker e) q /\
              (quote_O q =? 0)%float = false) results
  | inl e =>
    e = ZeroDivisionError /\
    exists before ticker after,
      tickers = before ++ ticker :: after /\
      Forall (fun t => divides_by_zero w t = false) before /\
      divides_by_zero w ticker = true
  end.
Proof.
  destruct ((fetch_all w tickers).1) as [e|[results failed_tickers]] eqn:H.
  - now apply fetch_all_inl.
  - destruct (fetch_all_inr _ _ _ _ H) as (Hd & Hr & Hf & He).
    split; [exact Hd|]. split; [exact Hr|]. split; [exact Hf|].
    split; [|exact He].
    rewrite <- (length_map e_ticker), Hr, Hf.
    clear. induction tickers as [|t tickers IH]; [reflexivity|].
    simpl. destruct (has_quote w t); simpl; lia.
Qed.

(** ** What a run does to the outside *)

Lemma requests_app (t1 t2 : list effect) :
  requests (t1 ++ t2) = requests t1 ++ requests t2.
Proof. unfold requests. apply List.filter_app. Qed.

Lemma requests_for_app (ticker : string) (t1 t2 : list effect) :
  requests_for ticker (t1 ++ t2)
    = requests_for ticker t1 ++ requests_for ticker t2.
Proof. unfold requests_for. apply List.filter_app. Qed.

Lemma secret_reads_app (t1 t2 : list effect) :
  secret_reads (t1 ++ t2) = secret_reads t1 ++ secret_reads t2.
Proof. unfold secret_reads. apply List.filter_app. Qed.

Lemma fetch_loop_first_request (ticker : string) (upstream : nat -> reply)
    (remaining attempt : nat) :
  (1 <= length (requests
                  (fetch_loop ticker upstream attempt (S remaining)).2))%nat.
Proof.
  simpl. destruct (attempt_once attempt (upstream attempt)).
  - simpl. lia.
  - destruct (fetch_loop ticker upstream (S attempt) remaining)
      as [result trace]. simpl. lia.
Qed.

Lemma fetch_loop_no_secret (ticker : string) (upstream : nat -> reply)
    (remaining : nat) : forall attempt,
  secret_reads (fetch_loop ticker upstream attempt remaining).2 = [].
Proof.
  induction remaining as [|n IH]; intros attempt; [reflexivity|].
  simpl. destruct (attempt_once attempt (upstream attempt)); [reflexivity|].
  specialize (IH (S attempt)).
  destruct (fetch_loop ticker upstream (S attempt) n) as [result trace].
  exact IH.
Qed.

(** The requests of one call of [fetch_ticker] all ask for its
    ticker. *)
Lemma fetch_loop_requests_for (ticker other : string)
    (upstream : nat -> reply) (remaining : nat) : forall attempt,
  requests_for other (fetch_loop ticker upstream attempt remaining).2 =
    if String.eqb ticker other
    then requests (fetch_loop ticker upstream attempt remaining).2
    else [].
Proof.
  induction remaining as [|n IH]; intros attempt.
  - simpl. now destruct (String.eqb ticker other).
  - simpl. destruct (attempt_once attempt (upstream attempt)).
    + simpl. now destruct (String.eqb ticker other).
    + specialize (IH (S attempt)).
      destruct (fetch_loop ticker upstream (S attempt) n) as [result trace].
      simpl in *. rewrite IH. now destruct (String.eqb ticker other).
Qed.

(** The trace of one turn of the loop of [main], as far as the secret
    and the requests go. *)
Lemma fetch_all_trace (w : world) (ticker : string) (tickers : list string) :
  exists t2,
    (fetch_all w (ticker :: tickers)).2
      = (fetch_ticker ticker (upstream w ticker)).2
          ++ Sleep RETRY_DELAY :: t2 /\
    (t2 = (fetch_all w tickers).2 \/
     t2 = [] /\ exists e, (fetch_all w (ticker :: tickers)).1 = inl e) /\
    (forall results failed_tickers,
       (fetch_all w (ticker :: tickers)).1 = inr (results, failed_tickers) ->
       t2 = (fetch_all w tickers).2 /\
       exists results' failed',
         (fetch_all w tickers).1 = inr (results', failed')).
Proof.
  rewrite fetch_all_cons. cbv zeta.
  destruct (quote_of w ticker) as [q|];
    [destruct (quote_O q =? 0)%float|].
  - exists []. split; [reflexivity|]. split; [right; eauto|].
    intros results failed_tickers H. discriminate.
  - exists (fetch_all w tickers).2. split; [reflexivity|].
    split; [now left|]. intros results failed_tickers H. cbn [fst] in H.
    destruct ((fetch_all w tickers).1) as [e|[results' failed']];
      [discriminate|]. eauto.
  - exists (fetch_all w tickers).2. split; [reflexivity|].
    split; [now left|]. intros results failed_tickers H. cbn [fst] in H.
    destruct ((fetch_all w tickers).1) as [e|[results' failed']];
      [discriminate|]. eauto.
Qed.

(** The loop over the tickers asks for no secret and sends at most
    [MAX_RETRIES + 1] requests for each ticker it is given. *)
Lemma fetch_all_effects (w : world) (tickers : list string) :
  secret_reads (fetch_all w tickers).2 = [] /\
  (length (requests (fetch_all w tickers).2)
     <= (MAX_RETRIES + 1) * length tickers)%nat.
Proof.
  induction tickers as [|ticker tickers [IHs IHr]].
  - split; [reflexivity|]. simpl. lia.
  - destruct (fetch_all_trace w ticker tickers) as (t2 & -> & Ht2 & _).
    pose proof (fetch_loop_no_secret ticker (upstream w ticker)
                  (MAX_RETRIES + 1) 1) as Hs.
    pose proof (fetch_loop_budget ticker (upstream w ticker)
                  (MAX_RETRIES + 1) 1) as Hhi.
    fold (fetch_ticker ticker (upstream w ticker)) in Hs, Hhi.
    rewrite secret_reads_app, requests_app, Hs, length_app.
    change (requests (Sleep RETRY_DELAY :: t2)) with (requests t2).
    change (secret_reads (Sleep RETRY_DELAY :: t2)) with (secret_reads t2).
    destruct Ht2 as [-> | [-> _]].
    + split; [exact IHs|]. unfold MAX_RETRIES in *. cbn [length]. lia.
    + split; [reflexivity|]. change (length (requests [])) with 0%nat.
      unfold MAX_RETRIES in *. cbn [length]. lia.
Qed.

(** No request is sent for a ticker the loop is not given. *)
Lemma fetch_all_other_ticker (w : world) (tickers : list string)
    (other : string) :
  ~ In other tickers -> requests_for other (fetch_all w tickers).2 = [].
Proof.
  induction tickers as [|ticker tickers IH]; intros Hout; [reflexivity|].
  destruct (fetch_all_trace w ticker tickers) as (t2 & -> & Ht2 & _).
  rewrite requests_for_app.
  unfold fetch_ticker. rewrite fetch_loop_requests_for.
  destruct (String.eqb_spec ticker other) as [->|Hne].
  - destruct Hout. now left.
  - change (requests_for other (Sleep RETRY_DELAY :: t2))
      with (requests_for other t2).
    destruct Ht2 as [-> | [-> _]]; [|reflexivity].
    apply IH. intros Hin. apply Hout. now right.
Qed.

(** For each of distinct tickers the loop sends at most
    [MAX_RETRIES + 1] requests. *)
Lemma fetch_all_per_ticker (w : world) (tickers : list string)
    (other : string) :
  List.NoDup tickers ->
  (length (requests_for other (fetch_all w tickers).2)
     <= MAX_RETRIES + 1)%nat.
Proof.
  induction 1 as [|ticker tickers Hfresh Hnd IH]; [simpl; lia|].
  destruct (fetch_all_trace w ticker tickers) as (t2 & -> & Ht2 & _).
  rewrite requests_for_app, length_app.
  unfold fetch_ticker. rewrite fetch_loop_requests_for.
  change (requests_for other (Sleep RETRY_DELAY :: t2))
    with (requests_for other t2).
  destruct (String.eqb_spec ticker other) as [->|Hne].
  - pose proof (fetch_loop_budget other (upstream w other)
                  (MAX_RETRIES + 1) 1) as Hhi.
    destruct Ht2 as [-> | [-> _]].
    + rewrite (fetch_all_other_ticker _ _ _ Hfresh). simpl in *. lia.
    + simpl in *. lia.
  - destruct Ht2 as [-> | [-> _]]; simpl in *; lia.
Qed.

(** A loop that runs to its end has sent a request for each ticker. *)
Lemma fetch_all_each_ticker (w : world) (tickers : list string)
    (other : string) : forall results failed_tickers,
  (fetch_all w tickers).1 = inr (results, failed_tickers) ->
  In other tickers ->
  (1 <= length (requests_for other (fetch_all w tickers).2))%nat.
Proof.
  induction tickers as [|ticker tickers IH];
    intros results failed_tickers Hend Hin; [destruct Hin|].
  destruct (fetch_all_trace w ticker tickers) as (t2 & -> & _ & Hrest).
  destruct (Hrest _ _ Hend) as (-> & results' & failed' & Hend').
  rewrite requests_for_app, length_app.
  unfold fetch_ticker. rewrite fetch_loop_requests_for.
  change (requests_for other (Sleep RETRY_DELAY :: (fetch_all w tickers).2))
    with (requests_for other (fetch_all w tickers).2).
  destruct (String.eqb_spec ticker other) as [->|Hne].
  - pose proof (fetch_loop_first_request other (upstream w other)
                  MAX_RETRIES 1) as Hlo.
    change (S MAX_RETRIES) with (MAX_RETRIES + 1)%nat in Hlo. lia.
  - destruct Hin as [Heq|Hin]; [congruence|].
    specialize (IH _ _ Hend' Hin). simpl. lia.
Qed.

Lemma writes_nil_not_in (trace : list effect) (d : string) (a : attrs) :
  writes trace = [] -> ~ In (PutItem d a) trace.
Proof.
  intros Hnil Hin.
  assert (Hw : In (PutItem d a) (writes trace)).
  { unfold writes. apply List.filter_In. now split. }
  rewrite Hnil in Hw. exact Hw.
Qed.

(** The four ways [main] ends once the key is there. *)
Lemma main_with_key (w : world) (trade_date now api_key : string)
    (store : gmap string attrs) :
  secret w = inr api_key ->
  main w trade_date now store =
    match (fetch_all w WATCHLIST).1 with
    | inl e => (Raised e, store, GetSecret :: (fetch_all w WATCHLIST).2)
    | inr ([], _) =>
      (Returned 200
         (NoData "No data — market closed or API unavailable" trade_date),
       store, GetSecret :: (fetch_all w WATCHLIST).2)
    | inr (first :: rest, failed_tickers) =>
      let win := max_from (fun x => abs (e_pct_change x)) first rest in
      let a := winner_item (e_ticker win) (e_pct_change win)
                 (e_closing_price win) now in
      match put_item_error w with
      | Some e =>
        (Raised e, store,
         GetSecret :: (fetch_all w WATCHLIST).2 ++ [PutItem trade_date a])
      | None =>
        (Returned 200
           (Summary trade_date (e_ticker win)
              (py_round (e_pct_change win) 4)
              (py_round (e_closing_price win) 2)
              (length (first :: rest)) failed_tickers),
         put_item trade_date a store,
         GetSecret :: (fetch_all w WATCHLIST).2 ++ [PutItem trade_date a])
      end
    end.
Proof.
  intros Hkey. unfold main, get_api_key. rewrite Hkey.
  destruct (fetch_all w WATCHLIST) as [[e|[results failed]] t1];
    [reflexivity|].
  cbn [fst snd]. destruct results as [|first rest]; [reflexivity|].
  unfold winner, py_max, write_winner.
  destruct (put_item_error w); reflexivity.
Qed.

Lemma main_without_key (w : world) (trade_date now : string)
    (store : gmap string attrs) (e : exn) :
  secret w = inl e ->
  main w trade_date now store
    = (Returned 500 (Text "Failed to retrieve API key"), store, [GetSecret]).
Proof. intros Hkey. unfold main, get_api_key. now rewrite Hkey. Qed.

(** The trace of a run: the secret, the loop, and a [put_item] or
    none. *)
Lemma main_trace (w : world) (trade_date now : string)
    (store : gmap string attrs) :
  (main w trade_date now store).2 = [GetSecret] \/
  (main w trade_date now store).2 = GetSecret :: (fetch_all w WATCHLIST).2 \/
  exists a,
    (main w trade_date now store).2
      = GetSecret :: (fetch_all w WATCHLIST).2 ++ [PutItem trade_date a].
Proof.
  destruct (secret w) as [e|api_key] eqn:Hkey.
  - rewrite (main_without_key _ _ _ _ e Hkey). now left.
  - rewrite (main_with_key _ _ _ api_key _ Hkey). right.
    destruct ((fetch_all w WATCHLIST).1) as [e|[[|first rest] failed]];
      [now left | now left |].
    cbv zeta. destruct (put_item_error w); right; eexists; reflexivity.
Qed.

(** X4.  Every run asks for the secret exactly once and before
    anything else; it sends at most [MAX_RETRIES + 1] requests for each
    ticker of the watchlist and none for any other ticker; when it has
    the key and its loop runs to the end it has sent at least one
    request for each ticker of the watchlist; and it calls [put_item]
    at most once, for the trade date and as the last thing it does. *)
Theorem run_effects (w : world) (trade_date now : string)
    (store : gmap string attrs) :
  (exists rest,
     (main w trade_date now store).2 = GetSecret :: rest /\
     secret_reads rest = []) /\
  (forall ticker,
     (length (requests_for ticker (main w trade_date now store).2)
        <= MAX_RETRIES + 1)%nat) /\
  (forall ticker, ~ In ticker WATCHLIST ->
     requests_for ticker (main w trade_date now store).2 = []) /\
  (forall api_key results failed_tickers ticker,
     secret w = inr api_key ->
     (fetch_all w WATCHLIST).1 = inr (results, failed_tickers) ->
     In ticker WATCHLIST ->
     (1 <= length (requests_for ticker (main w trade_date now store).2))%nat)
  /\
  (length (writes (main w trade_date now store).2) <= 1)%nat /\
  (forall d a, In (PutItem d a) (main w trade_date now store).2 ->
     d = trade_date /\
     last (main w trade_date now store).2 = Some (PutItem d a)).
Proof.
  destruct (fetch_all_effects w WATCHLIST) as [Hs _].
  pose proof (fetch_all_no_write w WATCHLIST) as Hw.
  assert (Hnd : List.NoDup WATCHLIST).
  { unfold WATCHLIST.
    repeat (constructor; [simpl; intuition discriminate|]). constructor. }
  pose proof (fun t => fetch_all_per_ticker w WATCHLIST t Hnd) as Hper.
  pose proof (fetch_all_other_ticker w WATCHLIST) as Hout.
  pose proof (fetch_all_each_ticker w WATCHLIST) as Heach.
  pose (shape := fun trace : list effect =>
    (exists rest, trace = GetSecret :: rest /\ secret_reads rest = []) /\
    (forall ticker,
       (length (requests_for ticker trace) <= MAX_RETRIES + 1)%nat) /\
    (forall ticker, ~ In ticker WATCHLIST ->
       requests_for ticker trace = []) /\
    (forall api_key results failed_tickers ticker,
       secret w = inr api_key ->
       (fetch_all w WATCHLIST).1 = inr (results, failed_tickers) ->
       In ticker WATCHLIST ->
       (1 <= length (requests_for ticker trace))%nat) /\
    (length (writes trace) <= 1)%nat /\
    (forall d a, In (PutItem d a) trace ->
       d = trade_date /\ last trace = Some (PutItem d a))).
  change (shape (main w trade_date now store).2).
  set (t1 := (fetch_all w WATCHLIST).2) in *.
  assert (Hloop : shape (GetSecret :: t1)).
  { split; [exists t1; now split|].
    change (writes (GetSecret :: t1)) with (writes t1).
    split; [exact Hper|]. split; [exact Hout|].
    split; [intros k r f t _ He Hi; exact (Heach t r f He Hi)|].
    split; [rewrite Hw; simpl; lia|].
    intros d a [H|H]; [discriminate|].
    now destruct (writes_nil_not_in t1 d a Hw). }
  assert (Hput : forall a, shape (GetSecret :: t1 ++ [PutItem trade_date a])).
  { intros a. split.
    { exists (t1 ++ [PutItem trade_date a]). split; [reflexivity|].
      now rewrite secret_reads_app, Hs. }
    assert (Hreq : forall t,
              requests_for t (GetSecret :: t1 ++ [PutItem trade_date a])
                = requests_for t t1).
    { intros t.
      change (requests_for t (GetSecret :: t1 ++ [PutItem trade_date a]))
        with (requests_for t (t1 ++ [PutItem trade_date a])).
      rewrite requests_for_app. apply app_nil_r. }
    change (writes (GetSecret :: t1 ++ [PutItem trade_date a]))
      with (writes (t1 ++ [PutItem trade_date a])).
    rewrite writes_app, Hw.
    split; [intros t; rewrite Hreq; apply Hper|].
    split; [intros t Ht; rewrite Hreq; now apply Hout|].
    split; [intros k r f t _ He Hi; rewrite Hreq;
            exact (Heach t r f He Hi)|].
    split; [simpl; lia|].
    intros d a0 [H|H]; [discriminate|].
    apply in_app_or in H as [H|[H|[]]].
    - now destruct (writes_nil_not_in t1 d a0 Hw).
    - injection H as <- <-. split; [reflexivity|].
      change (GetSecret :: t1 ++ [PutItem trade_date a])
        with ((GetSecret :: t1) ++ [PutItem trade_date a]).
      apply last_snoc. }
  destruct (secret w) as [e|api_key] eqn:Hkey.
  - rewrite (main_without_key _ _ _ _ e Hkey). cbn [snd].
    split; [exists []; now split|].
    split; [intros ticker; simpl; lia|]. split; [reflexivity|].
    split; [discriminate|]. split; [simpl; lia|].
    intros d a [H|[]]. discriminate.
  - rewrite (main_with_key _ _ _ api_key _ Hkey).
    destruct ((fetch_all w WATCHLIST).1) as [e|[[|first rest] failed]];
      [exact Hloop | exact Hloop |].
    cbv zeta. destruct (put_item_error w); apply Hput.
Qed.

Lemma run_effects_witness :
  (1 <= length (requests_for "TSLA"
                  (main Sample.world_ok "2025-06-10"
                     "2025-06-10T21:00:05+00:00" ∅).2))%nat.
Proof.
  eapply (proj1 (proj2 (proj2 (proj2
            (run_effects Sample.world_ok "2025-06-10"
               "2025-06-10T21:00:05+00:00" ∅)))) "key").
  - reflexivity.
  - reflexivity.
  - simpl. tauto.
Defined.

(** A run that stops at a division by zero has sent no request for the
    tickers after the one it stopped at. *)
Example text_day_requests :
  requests_for "GOOGL"
    (main Sample.world_text "2025-06-10" "2025-06-10T21:00:05+00:00" ∅).2
    = [].
Proof. reflexivity. Qed.

(** ** What a run does to the table *)

(** A run leaves the table as it was or puts one item under the trade
    date. *)
Lemma main_store (w : world) (trade_date now : string)
    (store : gmap string attrs) :
  (main w trade_date now store).1.2 = store \/
  exists a, (main w trade_date now store).1.2 = put_item trade_date a store.
Proof.
  destruct (secret w) as [e|api_key] eqn:Hkey.
  - rewrite (main_without_key _ _ _ _ e Hkey). now left.
  - rewrite (main_with_key _ _ _ api_key _ Hkey).
    destruct ((fetch_all w WATCHLIST).1) as [e|[[|first rest] failed]];
      [now left | now left |].
    cbv zeta. destruct (put_item_error w); [now left|].
    right. eexists. reflexivity.
Qed.

(** X5.  A run never touches the records of other dates and never
    removes a record: the table after the run agrees with the table
    before it on every date but the trade date, and every date that
    had a record still has one. *)
Theorem run_keeps_other_dates (w : world) (trade_date now : string)
    (store : gmap string attrs) :
  (forall d, d <> trade_date ->
     (main w trade_date now store).1.2 !! d = store !! d) /\
  (forall d, is_Some (store !! d) ->
     is_Some ((main w trade_date now store).1.2 !! d)).
Proof.
  destruct (main_store w trade_date now store) as [->|[a ->]].
  - now split.
  - unfold put_item. split.
    + intros d Hd. now apply lookup_insert_ne.
    + intros d Hd. destruct (decide (trade_date = d)) as [->|Hne].
      * rewrite lookup_insert_eq. eauto.
      * now rewrite lookup_insert_ne.
Qed.

Lemma run_keeps_other_dates_witness :
  (main Sample.world_ok "2025-06-10" "2025-06-10T21:00:05+00:00"
     Sample.two_days).1.2 !! "2025-01-03" = Sample.two_days !! "2025-01-03".
Proof.
  apply (proj1 (run_keeps_other_dates Sample.world_ok "2025-06-10"
                  "2025-06-10T21:00:05+00:00" Sample.two_days)).
  discriminate.
Defined.

(** X6.  A run that writes replaces whatever an earlier run for the
    same date left: the table after the two runs is the table the
    second run alone would have produced, and nothing of the first
    run's record is kept. *)
Theorem rerun_overwrites (w1 w2 : world) (trade_date now1 now2 : string)
    (api_key : string) (store : gmap string attrs)
    (results : list entry) (failed_tickers : list string) :
  secret w2 = inr api_key ->
  (fetch_all w2 WATCHLIST).1 = inr (results, failed_tickers) ->
  results <> [] ->
  put_item_error w2 = None ->
  (main w2 trade_date now2 (main w1 trade_date now1 store).1.2).1.2
    = (main w2 trade_date now2 store).1.2 /\
  (main w2 trade_date now2 (main w1 trade_date now1 store).1.2).1.1
    = (main w2 trade_date now2 store).1.1.
Proof.
  intros Hkey Hend Hne Hput.
  rewrite !(main_with_key w2 _ _ api_key _ Hkey), Hend.
  destruct results as [|first rest]; [congruence|].
  cbv zeta. rewrite Hput. cbn [fst snd]. split; [|reflexivity].
  destruct (main_store w1 trade_date now1 store) as [->|[a ->]];
    [reflexivity|].
  unfold put_item. apply insert_insert_eq.
Qed.

Lemma rerun_overwrites_witness :
  (main Sample.world_ok "2025-06-10" "2025-06-10T21:30:00+00:00"
     (main Sample.world_ok "2025-06-10" "2025-06-10T21:00:05+00:00"
        ∅).1.2).1.2
    = (main Sample.world_ok "2025-06-10" "2025-06-10T21:30:00+00:00" ∅).1.2.
Proof.
  refine (proj1 (rerun_overwrites Sample.world_ok Sample.world_ok
                   "2025-06-10" "2025-06-10T21:00:05+00:00"
                   "2025-06-10T21:30:00+00:00" "key" ∅
                   [entry_of "AAPL" {| quote_O := 100; quote_C := 101 |};
                    entry_of "MSFT" {| quote_O := 200; quote_C := 190 |};
                    entry_of "TSLA" {| quote_O := 300; quote_C := 315 |}]
                   ["GOOGL"; "AMZN"; "NVDA"] _ _ _ _)).
  - reflexivity.
  - reflexivity.
  - discriminate.
  - reflexivity.
Defined.

(** X7.  A run that has its key, a loop that ran to its end with at
    least one quote, and a working table returns status 200 with the
    summary of the winner: its ticker, the two numbers exactly as they
    were stored, the number of tickers that gave a quote and the list
    of those that did not.  The winner is one of the collected entries,
    its change and closing price are those of the quote of its ticker,
    and the table then holds its record under the trade date. *)
Theorem successful_run (w : world) (trade_date now api_key : string)
    (store : gmap string attrs) (results : list entry)
    (failed_tickers : list string) :
  secret w = inr api_key ->
  (fetch_all w WATCHLIST).1 = inr (results, failed_tickers) ->
  results <> [] ->
  put_item_error w = None ->
  exists win pc cp q,
    winner results = inr win /\
    In win results /\
    quote_of w (e_ticker win) = Some q /\
    win = entry_of (e_ticker win) q /\
    (main w trade_date now store).1.1
      = Returned 200
          (Summary trade_date (e_ticker win) pc cp
             (length (List.filter (has_quote w) WATCHLIST))
             (List.filter (fun t => negb (has_quote w t)) WATCHLIST)) /\
    (main w trade_date now store).1.2 !! trade_date
      = Some {| a_ticker := Some (e_ticker win);
                a_percent_change := Some (Num pc);
                a_closing_price := Some (Num cp);
                a_ingested_at := Some now |} /\
    pc = py_round (e_pct_change win) 4 /\
    cp = py_round (e_closing_price win) 2.
Proof.
  intros Hkey Hend Hne Hput.
  rewrite (main_with_key _ _ _ api_key _ Hkey), Hend.
  destruct (fetch_all_inr _ _ _ _ Hend) as (_ & Hr & Hf & He).
  rewrite <- Hf, <- Hr, length_map.
  destruct results as [|first rest]; [congruence|].
  cbv zeta. rewrite Hput. cbn [fst snd].
  pose proof (max_from_elem (fun x => abs (e_pct_change x)) rest first)
    as Hin.
  set (win := max_from (fun x => abs (e_pct_change x)) first rest) in *.
  destruct (proj1 (List.Forall_forall _ _) He win Hin) as (q & Hq & Hwin & _).
  exists win, (py_round (e_pct_change win) 4),
    (py_round (e_closing_price win) 2), q.
  split; [reflexivity|]. split; [exact Hin|]. split; [exact Hq|].
  split; [exact Hwin|]. split; [reflexivity|]. split; [|now split].
  unfold put_item. now rewrite lookup_insert_eq.
Qed.

Lemma successful_run_witness :
  exists win pc cp q,
    winner [entry_of "AAPL" {| quote_O := 100.2; quote_C := 110.22 |};
            entry_of "MSFT" {| quote_O := 300.6; quote_C := 330.66 |}]
      = inr win /\
    In win [entry_of "AAPL" {| quote_O := 100.2; quote_C := 110.22 |};
            entry_of "MSFT" {| quote_O := 300.6; quote_C := 330.66 |}] /\
    quote_of Sample.world_near_tie (e_ticker win) = Some q /\
    win = entry_of (e_ticker win) q /\
    (main Sample.world_near_tie "2025-06-10" "2025-06-10T21:00:05+00:00"
       ∅).1.1
      = Returned 200
          (Summary "2025-06-10" (e_ticker win) pc cp
             (length (List.filter (has_quote Sample.world_near_tie)
                        WATCHLIST))
             (List.filter (fun t => negb (has_quote Sample.world_near_tie t))
                WATCHLIST)) /\
    (main Sample.world_near_tie "2025-06-10" "2025-06-10T21:00:05+00:00"
       ∅).1.2 !! "2025-06-10"
      = Some {| a_ticker := Some (e_ticker win);
                a_percent_change := Some (Num pc);
                a_closing_price := Some (Num cp);
                a_ingested_at := Some "2025-06-10T21:00:05+00:00" |} /\
    pc = py_round (e_pct_change win) 4 /\
    cp = py_round (e_closing_price win) 2.
Proof.
  apply (successful_run Sample.world_near_tie "2025-06-10"
           "2025-06-10T21:00:05+00:00" "key" ∅ _
           ["GOOGL"; "AMZN"; "TSLA"; "NVDA"]).
  - reflexivity.
  - reflexivity.
  - discriminate.
  - reflexivity.
Defined.

(** * Further properties of the query handler *)

(** X9.  Whatever the request, the table and the day, the response
    carries the four CORS headers and status 200 or 500, status 500
    goes with an error body and only with it, and the table is read at
    most once.  A preflight request is answered 200 with an empty body
    and without reading the table; any other request reads the seven
    dates exactly once. *)
Theorem query_response_shape (ev : Query.event) (db : Query.backend)
    (today : Z) :
  Query.headers (Query.main ev db today).1 = Query.CORS_HEADERS /\
  (Query.statusCode (Query.main ev db today).1 = 200 \/
   Query.statusCode (Query.main ev db today).1 = 500) /\
  (Query.statusCode (Query.main ev db today).1 = 500 <->
   exists message,
     Query.body_of (Query.main ev db today).1
       = Query.Error "Internal server error" message) /\
  (length (Query.main ev db today).2 <= 1)%nat /\
  (Query.httpMethod ev = Some "OPTIONS" ->
   Query.main ev db today
     = ({| Query.statusCode := 200; Query.headers := Query.CORS_HEADERS;
           Query.body_of := Query.Empty |}, [])) /\
  (Query.httpMethod ev <> Some "OPTIONS" ->
   (Query.main ev db today).2
     = [Query.get_date_range today Query.DAYS_TO_RETURN]).
Proof.
  destruct (decide (Query.httpMethod ev = Some "OPTIONS")) as [Hopt|Hget].
  - assert (Hmain : Query.main ev db today
              = ({| Query.statusCode := 200;
                    Query.headers := Query.CORS_HEADERS;
                    Query.body_of := Query.Empty |}, [])).
    { unfold Query.main. now rewrite bool_decide_eq_true_2. }
    rewrite Hmain. cbn [fst snd Query.headers Query.statusCode
                          Query.body_of length].
    split; [reflexivity|]. split; [now left|].
    split; [split; [discriminate | intros [m Hm]; discriminate]|].
    split; [lia|]. split; [reflexivity | contradiction].
  - rewrite (main_get _ _ _ Hget). cbn [fst snd length].
    assert (Hshape : forall r,
      (exists e, r = error_response e) \/ (exists ms, r = ok_response ms) ->
      Query.headers r = Query.CORS_HEADERS /\
      (Query.statusCode r = 200 \/ Query.statusCode r = 500) /\
      (Query.statusCode r = 500 <->
       exists message,
         Query.body_of r = Query.Error "Internal server error" message)).
    { intros r [[e ->]|[ms ->]]; simpl.
      - split; [reflexivity|]. split; [now right|]. split; eauto.
      - split; [reflexivity|]. split; [now left|].
        split; [discriminate | intros [m Hm]; discriminate]. }
    assert (Hr : (exists e,
                    match db (Query.get_date_range today
                                Query.DAYS_TO_RETURN) with
                    | inl e => error_response e
                    | inr items =>
                      match Query.format_items items with
                      | inl e => error_response e
                      | inr ms => ok_response (Query.sorted_desc ms)
                      end
                    end = error_response e) \/
                 (exists ms,
                    match db (Query.get_date_range today
                                Query.DAYS_TO_RETURN) with
                    | inl e => error_response e
                    | inr items =>
                      match Query.format_items items with
                      | inl e => error_response e
                      | inr ms => ok_response (Query.sorted_desc ms)
                      end
                    end = ok_response ms)).
    { destruct (db _) as [e|items]; [left; eauto|].
      destruct (Query.format_items items) as [e|ms]; [left|right]; eauto. }
    destruct (Hshape _ Hr) as (Hh & Hs & Hb).
    split; [exact Hh|]. split; [exact Hs|]. split; [exact Hb|].
    split; [lia|]. split; [contradiction | reflexivity].
Qed.

Lemma query_response_shape_witness :
  Query.main {| Query.httpMethod := Some "OPTIONS" |} Sample.unavailable
    739254
    = ({| Query.statusCode := 200; Query.headers := Query.CORS_HEADERS;
          Query.body_of := Query.Empty |}, []) /\
  (Query.main Sample.get Sample.unavailable 739254).2
    = [Query.get_date_range 739254 Query.DAYS_TO_RETURN].
Proof.
  split.
  - apply (proj1 (proj2 (proj2 (proj2 (proj2
             (query_response_shape {| Query.httpMethod := Some "OPTIONS" |}
                Sample.unavailable 739254)))))).
    reflexivity.
  - apply (proj2 (proj2 (proj2 (proj2 (proj2
             (query_response_shape Sample.get Sample.unavailable
                739254)))))).
    discriminate.
Defined.

(** X10.  The list comprehension over the items fails exactly when some
    item cannot be formatted, and then with the exception of the first
    such item in the order of the response; the items before it were
    formatted and are dropped with the rest. *)
Theorem format_items_first_failure (items : list Query.item) (e : exn) :
  Query.format_items items = inl e <->
  exists before it after,
    items = before ++ it :: after /\
    Forall (fun i => exists m, Query.format_item i = inr m) before /\
    Query.format_item it = inl e.
Proof.
  split.
  - revert e. induction items as [|it items IH]; simpl; intros e H;
      [discriminate|].
    destruct (Query.format_item it) as [e'|m] eqn:Hit.
    + injection H as <-. exists [], it, items.
      split; [reflexivity|]. split; [constructor | exact Hit].
    + destruct (Query.format_items items) as [e'|ms]; [|discriminate].
      injection H as <-.
      destruct (IH e' eq_refl) as (before & bad & after & -> & Hb & Hbad).
      exists (it :: before), bad, after.
      split; [reflexivity|]. split; [|exact Hbad].
      constructor; [now exists m | exact Hb].
  - intros (before & it & after & -> & Hb & Hit).
    induction Hb as [|i before [m Hm] _ IH]; simpl.
    + now rewrite Hit.
    + now rewrite Hm, IH.
Qed.

Lemma format_items_first_failure_witness :
  Query.format_items
    [{| Query.i_date := Some "2025-01-03"; Query.i_ticker := Some "MSFT";
        Query.i_percent_change := None; Query.i_closing_price := None |};
     {| Query.i_date := Some "2025-01-02"; Query.i_ticker := None;
        Query.i_percent_change := Some (NotNum "n/a");
        Query.i_closing_price := None |};
     {| Query.i_date := None; Query.i_ticker := None;
        Query.i_percent_change := None; Query.i_closing_price := None |}]
    = inl (KeyError "ticker").
Proof.
  apply (proj2 (format_items_first_failure _ (KeyError "ticker"))).
  exists [{| Query.i_date := Some "2025-01-03";
             Query.i_ticker := Some "MSFT";
             Query.i_percent_change := None;
             Query.i_closing_price := None |}],
    {| Query.i_date := Some "2025-01-02"; Query.i_ticker := None;
       Query.i_percent_change := Some (NotNum "n/a");
       Query.i_closing_price := None |},
    [{| Query.i_date := None; Query.i_ticker := None;
        Query.i_percent_change := None; Query.i_closing_price := None |}].
  split; [reflexivity|]. split; [|reflexivity].
  constructor; [|constructor]. eexists. reflexivity.
Defined.

(** ** The sort *)

Lemma insert_desc_same_date (d : string) (x : Query.mover)
    (l : list Query.mover) :
  List.filter (fun m => String.eqb (Query.m_date m) d) (Query.insert_desc x l)
    = List.filter (fun m => String.eqb (Query.m_date m) d) (x :: l).
Proof.
  induction l as [|y l IH]; [reflexivity|].
  cbn [Query.insert_desc].
  destruct (String.leb (Query.m_date y) (Query.m_date x)) eqn:Hle;
    [reflexivity|].
  assert (Hne : Query.m_date y <> Query.m_date x).
  { intros Heq. rewrite Heq in Hle.
    destruct (String.leb_total (Query.m_date x) (Query.m_date x));
      congruence. }
  cbn [List.filter] in *.
  destruct (String.eqb_spec (Query.m_date x) d) as [Hx|Hx];
    destruct (String.eqb_spec (Query.m_date y) d) as [Hy|Hy];
    rewrite IH; try reflexivity.
  congruence.
Qed.

(** X11.  The sort is stable and loses nothing: the sorted list is a
    rearrangement of the formatted items, and the movers that share a
    date stand in it in the order the table returned them. *)
Theorem sorted_desc_stable (l : list Query.mover) :
  Permutation (Query.sorted_desc l) l /\
  forall d : string,
    List.filter (fun m => String.eqb (Query.m_date m) d) (Query.sorted_desc l)
      = List.filter (fun m => String.eqb (Query.m_date m) d) l.
Proof.
  split; [apply sorted_desc_perm|].
  intros d. induction l as [|x l IH]; [reflexivity|].
  cbn [Query.sorted_desc]. rewrite insert_desc_same_date.
  cbn [List.filter]. now rewrite IH.
Qed.

(** X12.  A list that is already in newest-first order is returned as
    it is, so sorting twice is sorting once. *)
Theorem sorted_desc_fixpoint (l : list Query.mover) :
  (StronglySorted newest_first l -> Query.sorted_desc l = l) /\
  Query.sorted_desc (Query.sorted_desc l) = Query.sorted_desc l.
Proof.
  assert (Hfix : forall k, StronglySorted newest_first k ->
                   Query.sorted_desc k = k).
  { induction k as [|x k IH]; intros Hs; [reflexivity|].
    inversion Hs as [|? ? Hs' Hall]; subst.
    cbn [Query.sorted_desc]. rewrite (IH Hs').
    destruct k as [|y k]; [reflexivity|].
    cbn [Query.insert_desc].
    inversion Hall as [|? ? Hxy _]; subst.
    unfold newest_first, String.le in Hxy.
    destruct (String.leb (Query.m_date y) (Query.m_date x));
      [reflexivity | contradiction]. }
  split; [apply Hfix|]. apply Hfix, sorted_desc_sorted.
Qed.

Lemma sorted_desc_fixpoint_witness :
  Query.sorted_desc
    [{| Query.m_date := "2025-01-03"; Query.m_ticker := "MSFT";
        Query.m_percent_change := -5; Query.m_closing_price := 190 |};
     {| Query.m_date := "2024-12-31"; Query.m_ticker := "TSLA";
        Query.m_percent_change := 1; Query.m_closing_price := 410 |}]
  = [{| Query.m_date := "2025-01-03"; Query.m_ticker := "MSFT";
        Query.m_percent_change := -5; Query.m_closing_price := 190 |};
     {| Query.m_date := "2024-12-31"; Query.m_ticker := "TSLA";
        Query.m_percent_change := 1; Query.m_closing_price := 410 |}].
Proof.
  apply (proj1 (sorted_desc_fixpoint _)).
  repeat constructor.
Defined.

(** ** The window *)

Lemma get_date_range_length (today : Z) (days : nat) :
  length (Query.get_date_range today days) = days.
Proof. unfold Query.get_date_range. now rewrite length_map, length_seq. Qed.

Lemma get_date_range_lookup (today : Z) (days i : nat) :
  (i < days)%nat ->
  Query.get_date_range today days !! i
    = Some (Query.isoformat (today - Z.of_nat i)).
Proof.
  intros Hi. unfold Query.get_date_range.
  rewrite list_lookup_fmap, lookup_seq_lt by exact Hi. reflexivity.
Qed.

Lemma batch_get_item_agree (store1 store2 : gmap string attrs)
    (served keys : list string) :
  (forall d, d ∈ keys -> store1 !! d = store2 !! d) ->
  Query.batch_get_item store1 served keys
    = Query.batch_get_item store2 served keys.
Proof.
  intros Hagree. unfold Query.batch_get_item. f_equal.
  induction served as [|d served IH]; [reflexivity|].
  cbn [omap list_omap]. rewrite IH.
  destruct (bool_decide (d ∈ keys)) eqn:Hd; [|reflexivity].
  apply bool_decide_eq_true in Hd.
  unfold Query.table_item. now rewrite (Hagree d Hd).
Qed.

Lemma batch_get_item_none (store : gmap string attrs)
    (served keys : list string) :
  (forall d, d ∈ keys -> store !! d = None) ->
  Query.batch_get_item store served keys = inr [].
Proof.
  intros Hnone. unfold Query.batch_get_item. f_equal.
  induction served as [|d served IH]; [reflexivity|].
  cbn [omap list_omap]. rewrite IH.
  destruct (bool_decide (d ∈ keys)) eqn:Hd; [|reflexivity].
  apply bool_decide_eq_true in Hd.
  unfold Query.table_item. now rewrite (Hnone d Hd).
Qed.

(** The handler uses its backend only at the seven dates. *)
Lemma main_backend_agree (ev : Query.event) (db1 db2 : Query.backend)
    (today : Z) :
  db1 (Query.get_date_range today Query.DAYS_TO_RETURN)
    = db2 (Query.get_date_range today Query.DAYS_TO_RETURN) ->
  Query.main ev db1 today = Query.main ev db2 today.
Proof.
  intros Hdb.
  destruct (decide (Query.httpMethod ev = Some "OPTIONS")) as [Hopt|Hget].
  - unfold Query.main. now rewrite !bool_decide_eq_true_2.
  - now rewrite !(main_get _ _ _ Hget), Hdb.
Qed.

(** X13.  The response depends on the table only through the records
    of the seven dates of the window: two tables that agree there give
    the same response, whatever else they hold.  In particular, with no
    record under any of the seven dates the response is 200 with an
    empty list and count 0. *)
Theorem response_depends_on_window (ev : Query.event)
    (store1 store2 : gmap string attrs) (served : list string) (today : Z) :
  ((forall d, d ∈ Query.get_date_range today Query.DAYS_TO_RETURN ->
      store1 !! d = store2 !! d) ->
   Query.main ev (Query.batch_get_item store1 served) today
     = Query.main ev (Query.batch_get_item store2 served) today) /\
  (Query.httpMethod ev <> Some "OPTIONS" ->
   (forall d, d ∈ Query.get_date_range today Query.DAYS_TO_RETURN ->
      store1 !! d = None) ->
   (Query.main ev (Query.batch_get_item store1 served) today).1
     = {| Query.statusCode := 200; Query.headers := Query.CORS_HEADERS;
          Query.body_of := Query.Movers [] 0 |}).
Proof.
  split.
  - intros Hagree. apply main_backend_agree.
    now apply batch_get_item_agree.
  - intros Hget Hnone. rewrite (main_get _ _ _ Hget).
    now rewrite (batch_get_item_none _ _ _ Hnone).
Qed.

Lemma response_depends_on_window_witness :
  (Query.main Sample.get
     (Query.batch_get_item Sample.two_days Sample.oldest_first) 739924).1
    = {| Query.statusCode := 200; Query.headers := Query.CORS_HEADERS;
         Query.body_of := Query.Movers [] 0 |}.
Proof.
  apply (proj2 (response_depends_on_window Sample.get Sample.two_days ∅
                  Sample.oldest_first 739924)).
  - discriminate.
  - intros d Hd. vm_compute in Hd.
    repeat (apply elem_of_cons in Hd as [-> | Hd]);
      [| | | | | | | now apply elem_of_nil in Hd]; reflexivity.
Defined.

Lemma omap_length_filter (store : gmap string attrs)
    (served keys : list string) :
  (length (omap (fun d => if bool_decide (d ∈ keys)
                          then Query.table_item store d else None) served)
     <= length (List.filter (fun d => bool_decide (d ∈ keys)) served))%nat.
Proof.
  induction served as [|d served IH]; [reflexivity|].
  cbn [omap list_omap List.filter].
  destruct (bool_decide (d ∈ keys)); [|exact IH].
  destruct (Query.table_item store d); simpl; lia.
Qed.

Lemma filter_requested_length (served keys : list string) :
  NoDup served ->
  (length (List.filter (fun d => bool_decide (d ∈ keys)) served)
     <= length keys)%nat.
Proof.
  intros Hnd. apply submseteq_length, NoDup_submseteq.
  - apply NoDup_ListNoDup, List.NoDup_filter, NoDup_ListNoDup, Hnd.
  - intros d Hd. apply list_elem_of_In, List.filter_In in Hd as [_ Hd].
    now apply bool_decide_eq_true in Hd.
Qed.

(** X14.  When the table answers each key at most once, a body of
    movers never lists more than [DAYS_TO_RETURN] of them, however many
    records the table holds. *)
Theorem at_most_seven_movers (ev : Query.event) (store : gmap string attrs)
    (served : list string) (today : Z) (movers : list Query.mover)
    (count : nat) :
  NoDup served ->
  Query.body_of
    (Query.main ev (Query.batch_get_item store served) today).1
    = Query.Movers movers count ->
  (count <= Query.DAYS_TO_RETURN)%nat /\
  (length movers <= Query.DAYS_TO_RETURN)%nat.
Proof.
  intros Hnd Hbody.
  destruct (decide (Query.httpMethod ev = Some "OPTIONS")) as [Hopt|Hget].
  { unfold Query.main in Hbody. rewrite bool_decide_eq_true_2 in Hbody
      by exact Hopt. discriminate. }
  rewrite (main_get _ _ _ Hget) in Hbody. cbn [fst] in Hbody.
  unfold Query.batch_get_item in Hbody.
  set (keys := Query.get_date_range today Query.DAYS_TO_RETURN) in *.
  set (items := omap _ served) in *.
  destruct (Query.format_items items) as [e|ms] eqn:Hfmt; [discriminate|].
  simpl in Hbody. injection Hbody as <- <-.
  assert (Hlen : (length (Query.sorted_desc ms) <= Query.DAYS_TO_RETURN)%nat).
  { rewrite (Permutation_length (sorted_desc_perm ms)).
    rewrite <- (Forall2_length _ _ _ (format_items_inr _ _ Hfmt)).
    etransitivity; [apply omap_length_filter|].
    etransitivity; [apply (filter_requested_length served keys Hnd)|].
    unfold keys. now rewrite get_date_range_length. }
  now split.
Qed.

Lemma at_most_seven_movers_witness :
  (2 <= Query.DAYS_TO_RETURN)%nat.
Proof.
  refine (proj1 (at_most_seven_movers Sample.get Sample.two_days
                   Sample.oldest_first 739254
                   (Query.sorted_desc
                      [{| Query.m_date := "2024-12-31";
                          Query.m_ticker := "TSLA";
                          Query.m_percent_change :=
                            py_round (py_round 1.23456 4) 2;
                          Query.m_closing_price :=
                            py_round (py_round 410.05 2) 2 |};
                       {| Query.m_date := "2025-01-03";
                          Query.m_ticker := "MSFT";
                          Query.m_percent_change :=
                            py_round (py_round (-5) 4) 2;
                          Query.m_closing_price :=
                            py_round (py_round 190 2) 2 |}])
                   2 _ _)).
  - repeat constructor; rewrite ?elem_of_cons, ?elem_of_nil;
      intuition discriminate.
  - reflexivity.
Defined.

(** ** From the write to the read *)

(** With readable records under the seven dates the response is the 200
    one, and every stored record that was asked for and served is in
    it, formatted. *)
Lemma main_readable (ev : Query.event) (store : gmap string attrs)
    (served : list string) (today : Z) :
  Query.httpMethod ev <> Some "OPTIONS" ->
  (forall d a, d ∈ Query.get_date_range today Query.DAYS_TO_RETURN ->
     store !! d = Some a -> readable a) ->
  exists ms,
    (Query.main ev (Query.batch_get_item store served) today).1
      = ok_response (Query.sorted_desc ms) /\
    forall d a, d ∈ served ->
      d ∈ Query.get_date_range today Query.DAYS_TO_RETURN ->
      store !! d = Some a ->
      exists m, m ∈ Query.sorted_desc ms /\
        Query.format_item
          {| Query.i_date := Some d; Query.i_ticker := a_ticker a;
             Query.i_percent_change := a_percent_change a;
             Query.i_closing_price := a_closing_price a |} = inr m.
Proof.
  intros Hget Hreadable. rewrite (main_get _ _ _ Hget).
  set (keys := Query.get_date_range today Query.DAYS_TO_RETURN) in *.
  destruct (Query.batch_get_item store served keys) as [e|items] eqn:Hdb;
    [discriminate|].
  pose proof (fun it => batch_get_item_elem store served keys items it Hdb)
    as Helem.
  assert (Hall : Forall (fun it => exists m, Query.format_item it = inr m)
                   items).
  { apply Forall_forall. intros it Hin.
    apply Helem in Hin as (d & _ & Hk & Htab).
    apply table_item_some in Htab as (a & Ha & ->).
    apply format_item_readable. now apply (Hreadable d). }
  destruct (format_items_all _ Hall) as [ms Hfmt]. rewrite Hfmt.
  exists ms. split; [reflexivity|].
  intros d a Hs Hk Ha.
  assert (Hin : {| Query.i_date := Some d; Query.i_ticker := a_ticker a;
                   Query.i_percent_change := a_percent_change a;
                   Query.i_closing_price := a_closing_price a |} ∈ items).
  { apply Helem. exists d. split; [exact Hs|]. split; [exact Hk|].
    unfold Query.table_item. now rewrite Ha. }
  apply list_elem_of_lookup in Hin as [i Hi].
  destruct (Forall2_lookup_l _ _ _ _ _ (format_items_inr _ _ Hfmt) Hi)
    as (m & Hm & Hitm).
  exists m. split; [|exact Hitm].
  rewrite sorted_desc_perm. apply list_elem_of_lookup. eauto.
Qed.

Lemma today_in_window (today : Z) :
  Query.isoformat today
    ∈ Query.get_date_range today Query.DAYS_TO_RETURN.
Proof.
  apply list_elem_of_lookup. exists 0%nat.
  rewrite get_date_range_lookup by (unfold Query.DAYS_TO_RETURN; lia).
  now rewrite Z.sub_0_r.
Qed.


(** X15.  What a successful ingestion run writes for today is what a
    query of the same day shows: when the table serves today's key and
    the other records of the window are readable, the response is 200
    and lists today's mover with the winner's ticker, the percent
    change rounded to four digits and then to two, and the closing
    price rounded to two digits and then to two again. *)
Theorem ingest_then_query (w : world) (today : Z) (now api_key : string)
    (store : gmap string attrs) (served : list string)
    (ev : Query.event) (results : list entry)
    (failed_tickers : list string) :
  secret w = inr api_key ->
  (fetch_all w WATCHLIST).1 = inr (results, failed_tickers) ->
  results <> [] ->
  put_item_error w = None ->
  Query.httpMethod ev <> Some "OPTIONS" ->
  Query.isoformat today ∈ served ->
  (forall d a, d ∈ Query.get_date_range today Query.DAYS_TO_RETURN ->
     d <> Query.isoformat today -> store !! d = Some a -> readable a) ->
  exists win movers,
    winner results = inr win /\
    (Query.main ev
       (Query.batch_get_item
          (main w (Query.isoformat today) now store).1.2 served)
       today).1 = ok_response movers /\
    {| Query.m_date := Query.isoformat today;
       Query.m_ticker := e_ticker win;
       Query.m_percent_change := py_round (py_round (e_pct_change win) 4) 2;
       Query.m_closing_price :=
         py_round (py_round (e_closing_price win) 2) 2 |}
      ∈ movers.
Proof.
  intros Hkey Hend Hne Hput Hget Hserved Hothers.
  rewrite (main_with_key _ _ _ api_key _ Hkey), Hend.
  destruct results as [|first rest]; [congruence|].
  cbv zeta. rewrite Hput. cbn [fst snd].
  set (win := max_from (fun x => abs (e_pct_change x)) first rest).
  set (a := winner_item (e_ticker win) (e_pct_change win)
              (e_closing_price win) now).
  set (store' := put_item (Query.isoformat today) a store).
  assert (Hstored : store' !! Query.isoformat today = Some a).
  { unfold store', put_item. apply lookup_insert_eq. }
  assert (Hreadable : forall d b,
            d ∈ Query.get_date_range today Query.DAYS_TO_RETURN ->
            store' !! d = Some b -> readable b).
  { intros d b Hd Hb.
    destruct (decide (d = Query.isoformat today)) as [->|Hother].
    - rewrite Hstored in Hb. injection Hb as <-.
      split; [eexists; reflexivity | split; intros text; discriminate].
    - unfold store', put_item in Hb.
      rewrite lookup_insert_ne in Hb by congruence.
      now apply (Hothers d). }
  destruct (main_readable ev store' served today Hget Hreadable)
    as (ms & Hresp & Hin).
  destruct (Hin _ a Hserved (today_in_window today) Hstored)
    as (m & Hm & Hfmt).
  exists win, (Query.sorted_desc ms). split; [reflexivity|].
  split; [exact Hresp|].
  unfold Query.format_item in Hfmt. simpl in Hfmt.
  injection Hfmt as <-. exact Hm.
Qed.

Lemma ingest_then_query_witness :
  exists win movers,
    winner [entry_of "AAPL" {| quote_O := 1000; quote_C := 1026.75 |}]
      = inr win /\
    (Query.main Sample.get
       (Query.batch_get_item
          (main Sample.world_half (Query.isoformat 739254)
             "2025-01-03T21:00:05+00:00" ∅).1.2 ["2025-01-03"])
       739254).1 = ok_response movers /\
    {| Query.m_date := Query.isoformat 739254;
       Query.m_ticker := e_ticker win;
       Query.m_percent_change := py_round (py_round (e_pct_change win) 4) 2;
       Query.m_closing_price :=
         py_round (py_round (e_closing_price win) 2) 2 |}
      ∈ movers.
Proof.
  apply (ingest_then_query Sample.world_half 739254
           "2025-01-03T21:00:05+00:00" "key" ∅ ["2025-01-03"] Sample.get
           _ ["MSFT"; "GOOGL"; "AMZN"; "TSLA"; "NVDA"]).
  - reflexivity.
  - reflexivity.
  - discriminate.
  - reflexivity.
  - discriminate.
  - vm_compute. apply list_elem_of_here.
  - intros d a _ _ Ha. rewrite lookup_empty in Ha. discriminate.
Defined.

(** On the day AAPL goes from 1000 to 1026.75 and no other ticker
    gives a quote, the run stores the change as 2.675 and the query of
    the day shows 2.67. *)
Example half_day_shown :
  (main Sample.world_half "2025-01-03" "2025-01-03T21:00:05+00:00" ∅).1.2
    !! "2025-01-03"
    = Some (winner_item "AAPL" 2.675 1026.75 "2025-01-03T21:00:05+00:00") /\
  (Query.main Sample.get
     (Query.batch_get_item
        (main Sample.world_half "2025-01-03" "2025-01-03T21:00:05+00:00"
           ∅).1.2 ["2025-01-03"])
     739254).1
    = ok_response
        [{| Query.m_date := "2025-01-03"; Query.m_ticker := "AAPL";
            Query.m_percent_change := 2.67;
            Query.m_closing_price := 1026.75 |}].
Proof. split; vm_compute; reflexivity. Qed.

(** * The calendar behind the window *)

Import Calendar.

Lemma isoformat_print (n : Z) : Query.isoformat n = print (civil n).
Proof. reflexivity. Qed.

Lemma print_text (t : Z * Z * Z) : print t = text_of (codes_of t).
Proof. reflexivity. Qed.

(** The order of two printed dates is the order of their character
    codes at the first difference. *)
Lemma text_of_compare (a : list N) : forall b,
  Forall (fun c => (c < 256)%N) a -> Forall (fun c => (c < 256)%N) b ->
  String.compare (text_of a) (text_of b) = first_difference a b.
Proof.
  induction a as [|x a IH]; intros [|y b] Ha Hb; try reflexivity.
  inversion Ha as [|? ? Hx Ha']; inversion Hb as [|? ? Hy Hb']; subst.
  cbn [text_of first_difference String.compare].
  unfold Ascii.compare. rewrite !N_ascii_embedding by assumption.
  rewrite (IH b Ha' Hb'). reflexivity.
Qed.

Lemma code_compare (n n' : Z) :
  (code n ?= code n')%N = (n mod 10 ?= n' mod 10).
Proof.
  unfold code.
  pose proof (Z.mod_pos_bound n 10 ltac:(lia)) as Hn.
  pose proof (Z.mod_pos_bound n' 10 ltac:(lia)) as Hn'.
  rewrite <- N2Z.inj_compare, !N2Z.inj_add, !Z2N.id by lia.
  apply Z.add_compare_mono_l.
Qed.

Lemma code_small (n : Z) : (code n < 256)%N.
Proof.
  unfold code. pose proof (Z.mod_pos_bound n 10 ltac:(lia)). lia.
Qed.

Lemma codes_of_small (t : Z * Z * Z) :
  Forall (fun c => (c < 256)%N) (codes_of t).
Proof.
  unfold codes_of. repeat constructor; try apply code_small.
Qed.

Lemma codes_of_order (t t' : Z * Z * Z) :
  0 <= t.1.1 <= 9999 -> 0 <= t.1.2 <= 99 -> 0 <= t.2 <= 99 ->
  0 <= t'.1.1 <= 9999 -> 0 <= t'.1.2 <= 99 -> 0 <= t'.2 <= 99 ->
  day_key t < day_key t' ->
  first_difference (codes_of t) (codes_of t') = Lt.
Proof.
  destruct t as [[y m] d], t' as [[y' m'] d']. unfold day_key. cbn [fst snd].
  intros Hy Hm Hd Hy' Hm' Hd' Hlt.
  unfold codes_of. cbn [fst snd first_difference].
  rewrite !code_compare. change (45 ?= 45)%N with Eq. cbv iota.
  repeat match goal with
  | |- context [(?a mod 10 ?= ?b mod 10)] =>
    destruct (Z.compare_spec (a mod 10) (b mod 10));
      [ | reflexivity | exfalso; Z.div_mod_to_equations; lia ]
  end.
  exfalso. Z.div_mod_to_equations. lia.
Qed.

(** The year, month and day of a day number, through its era. *)
Lemma civil_era (n : Z) :
  civil n =
    ((era_day ((n + 305) mod 146097)).1.1 + 400 * ((n + 305) / 146097),
     (era_day ((n + 305) mod 146097)).1.2,
     (era_day ((n + 305) mod 146097)).2).
Proof.
  unfold civil. cbv zeta.
  replace (n + 305 - (n + 305) / 146097 * 146097)
    with ((n + 305) mod 146097) by (rewrite Z.mod_eq; lia).
  set (doe := (n + 305) mod 146097). set (era := (n + 305) / 146097).
  unfold era_day. cbv zeta. cbn [fst snd].
  f_equal. f_equal. lia.
Qed.

Lemma era_checked_sound (fuel : nat) : forall doe prev,
  era_checked fuel doe prev = true ->
  forall k, doe <= k < doe + Z.of_nat fuel ->
    in_era (era_day k) = true /\
    (k = doe -> prev < day_key (era_day k)) /\
    (doe < k -> day_key (era_day (k - 1)) < day_key (era_day k)).
Proof.
  induction fuel as [|fuel IH]; intros doe prev Hc k Hk; [lia|].
  cbn [era_checked] in Hc. cbv zeta in Hc.
  destruct (in_era (era_day doe) && (prev <? day_key (era_day doe)))
    eqn:Hhere; [|discriminate].
  apply andb_true_iff in Hhere as [Hin Hprev]. apply Z.ltb_lt in Hprev.
  destruct (Z.eq_dec k doe) as [->|Hne].
  - split; [exact Hin|]. split; [intros _; exact Hprev | lia].
  - destruct (IH _ _ Hc k ltac:(lia)) as (Hk1 & Hk2 & Hk3).
    split; [exact Hk1|]. split; [lia|]. intros _.
    destruct (Z.eq_dec k (doe + 1)) as [->|Hne'].
    + replace (doe + 1 - 1) with doe by lia. now apply Hk2.
    + apply Hk3. lia.
Qed.

(** All the days of one era: year within the era, month and day in
    range, and every day printed after the day before it. *)
Lemma era_checked_all : era_checked (Z.to_nat 146097) 0 (-1) = true.
Proof. vm_compute. reflexivity. Qed.

Lemma era_day_facts (k : Z) :
  0 <= k <= 146096 ->
  in_era (era_day k) = true /\
  (0 < k -> day_key (era_day (k - 1)) < day_key (era_day k)).
Proof.
  intros Hk.
  destruct (era_checked_sound _ _ _ era_checked_all k ltac:(lia))
    as (H1 & _ & H3).
  now split.
Qed.

Lemma in_era_bounds (t : Z * Z * Z) :
  in_era t = true ->
  0 <= t.1.1 <= 400 /\ 1 <= t.1.2 <= 12 /\ 1 <= t.2 <= 31.
Proof.
  unfold in_era. rewrite !andb_true_iff, !Z.leb_le. lia.
Qed.

Lemma civil_month_day (n : Z) :
  1 <= (civil n).1.2 <= 12 /\ 1 <= (civil n).2 <= 31.
Proof.
  rewrite civil_era. cbn [fst snd].
  pose proof (Z.mod_pos_bound (n + 305) 146097 ltac:(lia)) as Hr.
  destruct (era_day_facts ((n + 305) mod 146097) ltac:(lia)) as [Hin _].
  apply in_era_bounds in Hin. lia.
Qed.

Lemma day_key_next (n : Z) :
  day_key (civil n) < day_key (civil (n + 1)).
Proof.
  rewrite !civil_era. unfold day_key. cbn [fst snd].
  pose proof (Z.mod_pos_bound (n + 305) 146097 ltac:(lia)) as Hr.
  pose proof (Z.div_mod (n + 305) 146097 ltac:(lia)) as Hz.
  set (q := (n + 305) / 146097) in *. set (r := (n + 305) mod 146097) in *.
  destruct (Z.eq_dec r 146096) as [Hlast|Hmid].
  - assert (Hq : (n + 1 + 305) / 146097 = q + 1).
    { symmetry. apply (Z.div_unique _ _ _ 0); lia. }
    assert (Hr' : (n + 1 + 305) mod 146097 = 0).
    { symmetry. apply (Z.mod_unique _ _ (q + 1)); lia. }
    rewrite Hq, Hr', Hlast.
    change (era_day 146096) with (400, 2, 29).
    change (era_day 0) with (0, 3, 1). cbn [fst snd]. lia.
  - assert (Hq : (n + 1 + 305) / 146097 = q).
    { symmetry. apply (Z.div_unique _ _ _ (r + 1)); lia. }
    assert (Hr' : (n + 1 + 305) mod 146097 = r + 1).
    { symmetry. apply (Z.mod_unique _ _ q); lia. }
    rewrite Hq, Hr'.
    destruct (era_day_facts (r + 1) ltac:(lia)) as [_ Hstep].
    specialize (Hstep ltac:(lia)).
    replace (r + 1 - 1) with r in Hstep by lia.
    unfold day_key in Hstep. lia.
Qed.

Lemma day_key_increasing (a b : Z) :
  a < b -> day_key (civil a) < day_key (civil b).
Proof.
  intros Hab.
  assert (H : forall k : nat,
            day_key (civil a) < day_key (civil (a + 1 + Z.of_nat k))).
  { induction k as [|k IH].
    - replace (a + 1 + Z.of_nat 0) with (a + 1) by lia. apply day_key_next.
    - replace (a + 1 + Z.of_nat (S k)) with (a + 1 + Z.of_nat k + 1) by lia.
      etransitivity; [exact IH | apply day_key_next]. }
  specialize (H (Z.to_nat (b - a - 1))).
  replace (a + 1 + Z.of_nat (Z.to_nat (b - a - 1))) with b in H by lia.
  exact H.
Qed.

Lemma civil_year (n : Z) :
  1 <= n <= MAX_ORDINAL -> 1 <= (civil n).1.1 <= 9999.
Proof.
  intros Hn. unfold MAX_ORDINAL in Hn.
  destruct (civil_month_day n) as [Hm Hd].
  assert (Hlo : day_key (civil 1) <= day_key (civil n)).
  { destruct (Z.eq_dec n 1) as [->|Hne]; [lia|].
    apply Z.lt_le_incl, day_key_increasing. lia. }
  assert (Hhi : day_key (civil n) <= day_key (civil 3652059)).
  { destruct (Z.eq_dec n 3652059) as [->|Hne]; [lia|].
    apply Z.lt_le_incl, day_key_increasing. lia. }
  change (day_key (civil 1)) with 10101 in Hlo.
  change (day_key (civil 3652059)) with 99991231 in Hhi.
  unfold day_key in Hlo, Hhi. lia.
Qed.

(** Within the range of [datetime.date], a later day prints as a
    greater text. *)
Lemma isoformat_increasing (a b : Z) :
  1 <= a -> a < b -> b <= MAX_ORDINAL ->
  String.compare (Query.isoformat a) (Query.isoformat b) = Lt.
Proof.
  intros Ha Hab Hb.
  rewrite !isoformat_print, !print_text.
  rewrite text_of_compare by apply codes_of_small.
  pose proof (civil_year a ltac:(lia)). pose proof (civil_year b ltac:(lia)).
  destruct (civil_month_day a). destruct (civil_month_day b).
  apply codes_of_order; try lia.
  now apply day_key_increasing.
Qed.

(** A body of movers is the sorted list of the formatted items of the
    batch read, and the date of each is one of the keys asked for and
    served. *)
Lemma movers_body (ev : Query.event) (store : gmap string attrs)
    (served : list string) (today : Z) (movers : list Query.mover)
    (count : nat) :
  Query.body_of
    (Query.main ev (Query.batch_get_item store served) today).1
    = Query.Movers movers count ->
  exists ms,
    movers = Query.sorted_desc ms /\
    sublist (map Query.m_date ms) served /\
    Forall (fun m => Query.m_date m
                       ∈ Query.get_date_range today Query.DAYS_TO_RETURN) ms.
Proof.
  intros Hbody.
  destruct (decide (Query.httpMethod ev = Some "OPTIONS")) as [Hopt|Hget].
  { unfold Query.main in Hbody. rewrite bool_decide_eq_true_2 in Hbody
      by exact Hopt. discriminate. }
  rewrite (main_get _ _ _ Hget) in Hbody. cbn [fst] in Hbody.
  unfold Query.batch_get_item in Hbody.
  set (keys := Query.get_date_range today Query.DAYS_TO_RETURN) in *.
  destruct (Query.format_items _) as [e|ms] eqn:Hfmt; [discriminate|].
  simpl in Hbody. injection Hbody as <- _.
  exists ms. split; [reflexivity|].
  clear Hget. revert ms Hfmt.
  induction served as [|d served IH]; intros ms Hfmt.
  - simpl in Hfmt. injection Hfmt as <-. split; constructor.
  - cbn [omap list_omap] in Hfmt.
    destruct (bool_decide (d ∈ keys)) eqn:Hd.
    + apply bool_decide_eq_true in Hd.
      destruct (Query.table_item store d) as [it|] eqn:Htab.
      * cbn [Query.format_items] in Hfmt.
        destruct (Query.format_item it) as [e|m] eqn:Hit; [discriminate|].
        destruct (Query.format_items _) as [e|ms'] eqn:Hrest; [discriminate|].
        injection Hfmt as <-.
        destruct (IH ms' eq_refl) as [Hsub Hall].
        apply table_item_some in Htab as (a & _ & ->).
        apply format_item_inr in Hit as (Hdate & _). simpl in Hdate.
        injection Hdate as Hdate. cbn [map]. rewrite <- Hdate.
        split; [now constructor|]. constructor; [now rewrite <- Hdate|exact Hall].
      * destruct (IH ms Hfmt) as [Hsub Hall]. split; [now constructor|exact Hall].
    + destruct (IH ms Hfmt) as [Hsub Hall]. split; [now constructor|exact Hall].
Qed.

Lemma window_key_age (today : Z) (days : nat) (d : string) :
  d ∈ Query.get_date_range today days ->
  exists i : nat, (i < days)%nat /\ d = Query.isoformat (today - Z.of_nat i).
Proof.
  intros Hd. apply list_elem_of_lookup in Hd as [i Hi].
  assert (Hlt : (i < days)%nat).
  { apply lookup_lt_Some in Hi. now rewrite get_date_range_length in Hi. }
  rewrite get_date_range_lookup in Hi by exact Hlt.
  injection Hi as <-. now exists i.
Qed.

Lemma older_key_below (today : Z) (i j : nat) :
  Z.of_nat j < today -> today <= MAX_ORDINAL -> (i < j)%nat ->
  String.compare (Query.isoformat (today - Z.of_nat j))
    (Query.isoformat (today - Z.of_nat i)) = Lt.
Proof.
  intros Hj Hmax Hij. apply isoformat_increasing; lia.
Qed.

Lemma compare_lt_not_le (s1 s2 : string) :
  String.compare s1 s2 = Lt -> ~ (s2 ≤ s1)%string.
Proof.
  intros Hlt Hle. unfold String.le, String.leb in Hle.
  rewrite String.compare_antisym, Hlt in Hle. exact Hle.
Qed.

Lemma compare_lt_ltb (s1 s2 : string) :
  String.compare s1 s2 = Lt -> String.ltb s1 s2 = true.
Proof. unfold String.ltb. now intros ->. Qed.

Lemma compare_lt_ne (s1 s2 : string) :
  String.compare s1 s2 = Lt -> s1 <> s2.
Proof.
  intros Hlt ->.
  pose proof (String.compare_antisym s2 s2) as H. rewrite Hlt in H.
  discriminate.
Qed.

(** X16.  For a day that lies at least [days] days into the calendar
    and not after 9999-12-31, the window has [days] keys, each one
    strictly below the keys before it as a text, and so no two of them
    equal: the batch read never asks for a key twice. *)
Theorem window_keys_descend (today : Z) (days : nat) :
  Z.of_nat days <= today -> today <= MAX_ORDINAL ->
  length (Query.get_date_range today days) = days /\
  (forall (i j : nat) (d e : string),
     (i < j)%nat ->
     Query.get_date_range today days !! i = Some d ->
     Query.get_date_range today days !! j = Some e ->
     String.ltb e d = true) /\
  NoDup (Query.get_date_range today days).
Proof.
  intros Hdays Hmax.
  assert (Hdesc : forall (i j : nat) (d e : string),
     (i < j)%nat ->
     Query.get_date_range today days !! i = Some d ->
     Query.get_date_range today days !! j = Some e ->
     String.compare e d = Lt).
  { intros i j d e Hij Hi Hj.
    assert (Hjd : (j < days)%nat).
    { apply lookup_lt_Some in Hj. now rewrite get_date_range_length in Hj. }
    rewrite get_date_range_lookup in Hi, Hj by lia.
    injection Hi as <-. injection Hj as <-.
    apply older_key_below; lia. }
  split; [apply get_date_range_length|]. split.
  - intros i j d e Hij Hi Hj. apply compare_lt_ltb. eauto.
  - apply NoDup_alt. intros i j d Hi Hj.
    destruct (Nat.lt_trichotomy i j) as [Hlt|[Heq|Hgt]]; [|exact Heq|].
    + now destruct (compare_lt_ne _ _ (Hdesc _ _ _ _ Hlt Hi Hj)).
    + now destruct (compare_lt_ne _ _ (Hdesc _ _ _ _ Hgt Hj Hi)).
Qed.

Lemma window_keys_descend_witness :
  NoDup (Query.get_date_range 739254 Query.DAYS_TO_RETURN).
Proof.
  refine (proj2 (proj2 (window_keys_descend 739254 Query.DAYS_TO_RETURN _ _))).
  - vm_compute. discriminate.
  - vm_compute. discriminate.
Defined.

Lemma ages_exist (today : Z) (ms : list Query.mover) :
  Forall (fun m => Query.m_date m
                     ∈ Query.get_date_range today Query.DAYS_TO_RETURN) ms ->
  exists ages,
    listed_by_age today ms ages /\
    Forall (fun i => (i < Query.DAYS_TO_RETURN)%nat) ages.
Proof.
  unfold listed_by_age.
  induction 1 as [|m ms Hm _ (ages & Heq & Hall)].
  - exists []. split; [reflexivity | constructor].
  - destruct (window_key_age _ _ _ Hm) as (i & Hi & Hd).
    exists (i :: ages). cbn [map]. rewrite Hd, Heq.
    split; [reflexivity | now constructor].
Qed.

Lemma ages_sorted (today : Z) (movers : list Query.mover) :
  Z.of_nat Query.DAYS_TO_RETURN <= today -> today <= MAX_ORDINAL ->
  StronglySorted newest_first movers ->
  forall ages,
    listed_by_age today movers ages ->
    Forall (fun i => (i < Query.DAYS_TO_RETURN)%nat) ages ->
    StronglySorted Nat.le ages.
Proof.
  intros Hlo Hmax. unfold listed_by_age.
  induction 1 as [|m movers Hs IH Hall]; intros [|i ages] Heq Hages;
    try discriminate; [constructor|].
  cbn [map] in Heq. injection Heq as Hm Hrest.
  inversion Hages as [|? ? Hi Hages']; subst.
  constructor; [now apply IH|].
  clear IH Hs Hages. revert ages Hrest Hages'.
  induction Hall as [|m' movers Hmm' _ IH]; intros [|j ages] Hrest Hages';
    try discriminate; [constructor|].
  cbn [map] in Hrest. injection Hrest as Hm' Hrest.
  inversion Hages' as [|? ? Hj Hages'']; subst.
  constructor; [|now apply IH].
  unfold newest_first in Hmm'. rewrite Hm, Hm' in Hmm'.
  destruct (le_lt_dec i j) as [Hle|Hlt]; [exact Hle|].
  destruct (compare_lt_not_le _ _ (older_key_below today j i ltac:(lia) Hmax Hlt)).
  exact Hmm'.
Qed.

(** X17.  On such a day the movers of a response are listed by age:
    the date of each is today minus a number of days below
    [DAYS_TO_RETURN], and these ages never decrease along the list, the
    most recent mover standing first.  When the table answers each key
    at most once, no two movers of the response share a date. *)
Theorem movers_listed_by_age (ev : Query.event) (store : gmap string attrs)
    (served : list string) (today : Z) (movers : list Query.mover)
    (count : nat) :
  Z.of_nat Query.DAYS_TO_RETURN <= today -> today <= MAX_ORDINAL ->
  Query.body_of
    (Query.main ev (Query.batch_get_item store served) today).1
    = Query.Movers movers count ->
  (exists ages,
     listed_by_age today movers ages /\
     Forall (fun i => (i < Query.DAYS_TO_RETURN)%nat) ages /\
     StronglySorted Nat.le ages) /\
  (NoDup served -> NoDup (map Query.m_date movers)).
Proof.
  intros Hlo Hmax Hbody.
  destruct (movers_body _ _ _ _ _ _ Hbody) as (ms & -> & Hsub & Hwin).
  split.
  - assert (Hwin' : Forall (fun m => Query.m_date m
                       ∈ Query.get_date_range today Query.DAYS_TO_RETURN)
                      (Query.sorted_desc ms)).
    { eapply Permutation_Forall; [|exact Hwin].
      symmetry. apply sorted_desc_perm. }
    destruct (ages_exist today _ Hwin') as (ages & Hages & Hsmall).
    exists ages. split; [exact Hages|]. split; [exact Hsmall|].
    eapply ages_sorted; eauto. apply sorted_desc_sorted.
  - intros Hnd.
    assert (Hms : NoDup (map Query.m_date ms)) by (eapply sublist_NoDup; eauto).
    eapply NoDup_Permutation_proper; [|exact Hms].
    apply Permutation_map, sorted_desc_perm.
Qed.

Lemma movers_listed_by_age_witness :
  exists ages,
    listed_by_age 739254
      (Query.sorted_desc
         [{| Query.m_date := "2024-12-31"; Query.m_ticker := "TSLA";
             Query.m_percent_change := py_round (py_round 1.23456 4) 2;
             Query.m_closing_price := py_round (py_round 410.05 2) 2 |};
          {| Query.m_date := "2025-01-03"; Query.m_ticker := "MSFT";
             Query.m_percent_change := py_round (py_round (-5) 4) 2;
             Query.m_closing_price := py_round (py_round 190 2) 2 |}])
      ages /\
    Forall (fun i => (i < Query.DAYS_TO_RETURN)%nat) ages /\
    StronglySorted Nat.le ages.
Proof.
  refine (proj1 (movers_listed_by_age Sample.get Sample.two_days
                   Sample.oldest_first 739254 _ 2 _ _ _)).
  - vm_compute. discriminate.
  - vm_compute. discriminate.
  - reflexivity.
Defined.


(** ** The time a run sleeps *)

Lemma slept_app (t1 t2 : list effect) :
  (slept (t1 ++ t2) == slept t1 + slept t2)%Q.
Proof.
  induction t1 as [|e t1 IH]; simpl; [lra|].
  destruct e; simpl; rewrite ?IH; lra.
Qed.

Lemma pause_bounds (attempt : nat) (r : reply) :
  (RETRY_DELAY <= pause attempt r
     <= RETRY_DELAY * inject_Z (2 ^ Z.of_nat (attempt - 1)))%Q.
Proof.
  assert (Hpow : (1 <= inject_Z (2 ^ Z.of_nat (attempt - 1)))%Q).
  { change 1%Q with (inject_Z 1). rewrite <- Zle_Qle.
    pose proof (Z.pow_pos_nonneg 2 (Z.of_nat (attempt - 1))). lia. }
  unfold RETRY_DELAY in *.
  destruct r as [status_code results| | |];
    try (rewrite pause_fixed by discriminate; unfold RETRY_DELAY; lra).
  destruct (Z.eq_dec status_code 429) as [->|Hne].
  - change (pause attempt (Http 429 results))
      with (1 * inject_Z (2 ^ Z.of_nat (attempt - 1)))%Q. lra.
  - rewrite pause_fixed by congruence. unfold RETRY_DELAY. lra.
Qed.

Lemma fetch_loop_slept (ticker : string) (upstream : nat -> reply)
    (remaining : nat) : forall attempt,
  (0 <= slept (fetch_loop ticker upstream attempt remaining).2
     <= pause_budget attempt remaining)%Q.
Proof.
  induction remaining as [|n IH]; intros attempt; [simpl; lra|].
  cbn [fetch_loop pause_budget]. rewrite attempt_once_policy.
  pose proof (pause_bounds attempt (upstream attempt)) as Hp.
  destruct (IH (S attempt)) as [IHlo IHhi].
  destruct Hp as [Hplo Hphi].
  set (top := (RETRY_DELAY * inject_Z (2 ^ Z.of_nat (attempt - 1)))%Q) in *.
  set (p := pause attempt (upstream attempt)) in *.
  set (rest := pause_budget (S attempt) n) in *.
  unfold RETRY_DELAY in Hplo.
  destruct (retried (upstream attempt)).
  - destruct (fetch_loop ticker upstream (S attempt) n) as [result trace].
    cbn [fst snd] in *.
    change (slept (Request ticker attempt :: Sleep p :: trace))
      with (p + slept trace)%Q.
    set (s := slept trace) in *. split; lra.
  - cbn [snd slept fold_right]. split; lra.
Qed.

(** The loop over the tickers pauses for at least [RETRY_DELAY], once
    it is given a ticker, and for at most 8 seconds a ticker; a loop
    that runs to its end has paused for at least [RETRY_DELAY] a
    ticker. *)
Lemma fetch_all_slept (w : world) (tickers : list string) :
  (0 <= slept (fetch_all w tickers).2
     <= 8 * inject_Z (Z.of_nat (length tickers)))%Q /\
  (tickers <> [] -> (1 <= slept (fetch_all w tickers).2)%Q) /\
  (forall results failed_tickers,
     (fetch_all w tickers).1 = inr (results, failed_tickers) ->
     (inject_Z (Z.of_nat (length tickers))
        <= slept (fetch_all w tickers).2)%Q).
Proof.
  induction tickers as [|ticker tickers (IHb & _ & IHe)].
  - split; [vm_compute; split; discriminate|].
    split; [congruence|]. intros _ _ _. vm_compute. discriminate.
  - destruct (fetch_all_trace w ticker tickers) as (t2 & -> & Ht2 & Hrest).
    pose proof (fetch_loop_slept ticker (upstream w ticker)
                  (MAX_RETRIES + 1) 1) as Hone.
    change (pause_budget 1 (MAX_RETRIES + 1))
      with (1 * 1 + (1 * 2 + (1 * 4 + 0)))%Q in Hone.
    fold (fetch_ticker ticker (upstream w ticker)) in Hone.
    set (t1 := (fetch_ticker ticker (upstream w ticker)).2) in *.
    assert (Hsum : (slept (t1 ++ Sleep RETRY_DELAY :: t2)
                      == slept t1 + (1 + slept t2))%Q).
    { rewrite slept_app. cbn [slept fold_right]. unfold RETRY_DELAY.
      reflexivity. }
    assert (Hlen : (inject_Z (Z.of_nat (length (ticker :: tickers)))
                      == 1 + inject_Z (Z.of_nat (length tickers)))%Q).
    { cbn [length]. rewrite Nat2Z.inj_succ, <- Z.add_1_r, inject_Z_plus.
      change (inject_Z 1) with 1%Q. lra. }
    assert (Hnn : (0 <= inject_Z (Z.of_nat (length tickers)))%Q).
    { change 0%Q with (inject_Z 0). rewrite <- Zle_Qle. lia. }
    assert (Ht2b : (0 <= slept t2
                      <= 8 * inject_Z (Z.of_nat (length tickers)))%Q).
    { destruct Ht2 as [-> | [-> _]]; [exact IHb|].
      cbn [slept fold_right]. split; lra. }
    set (n := inject_Z (Z.of_nat (length tickers))) in *.
    set (s1 := slept t1) in *. set (s2 := slept t2) in *.
    split; [rewrite Hsum, Hlen; split; lra|].
    split; [intros _; rewrite Hsum; lra|].
    intros results failed_tickers Hend.
    destruct (Hrest _ _ Hend) as (Heq & results' & failed' & Hend').
    specialize (IHe _ _ Hend'). rewrite Hsum, Hlen.
    unfold s2. rewrite Heq. fold n in IHe.
    set (s := slept (fetch_all w tickers).2) in *. lra.
Qed.

(** X18.  One call of [fetch_ticker] pauses for at most 7 seconds in
    all (1 + 2 + 4).  A run pauses for at most 48 seconds, and not at
    all when the key cannot be retrieved.  Once it has its key it
    pauses for at least one second, and for at least 6 seconds when its
    loop runs to the end (one pause of [RETRY_DELAY] after each ticker
    of the watchlist). *)
Theorem run_sleeps (w : world) (trade_date now : string)
    (store : gmap string attrs) :
  (forall ticker upstream,
     (0 <= slept (fetch_ticker ticker upstream).2 <= 7)%Q) /\
  (slept (main w trade_date now store).2 <= 48)%Q /\
  (forall e, secret w = inl e ->
     (slept (main w trade_date now store).2 == 0)%Q) /\
  (forall api_key, secret w = inr api_key ->
     (1 <= slept (main w trade_date now store).2)%Q) /\
  (forall api_key results failed_tickers,
     secret w = inr api_key ->
     (fetch_all w WATCHLIST).1 = inr (results, failed_tickers) ->
     (6 <= slept (main w trade_date now store).2)%Q).
Proof.
  split.
  { intros ticker up. unfold fetch_ticker.
    pose proof (fetch_loop_slept ticker up (MAX_RETRIES + 1) 1) as H.
    change (pause_budget 1 (MAX_RETRIES + 1))
      with (1 * 1 + (1 * 2 + (1 * 4 + 0)))%Q in H. lra. }
  destruct (fetch_all_slept w WATCHLIST) as (Hall & Hone & Hend).
  assert (Hne : WATCHLIST <> []) by discriminate.
  specialize (Hone Hne).
  change (inject_Z (Z.of_nat (length WATCHLIST))) with 6%Q in Hall, Hend.
  destruct (secret w) as [e|api_key] eqn:Hkey.
  - rewrite (main_without_key _ _ _ _ e Hkey). cbn [snd slept fold_right].
    split; [lra|]. split; [intros _ _; lra|].
    split; intros; discriminate.
  - rewrite (main_with_key _ _ _ api_key _ Hkey).
    set (t1 := (fetch_all w WATCHLIST).2) in *.
    assert (Hloop : (slept (GetSecret :: t1) == slept t1)%Q)
      by reflexivity.
    assert (Hput : forall a,
              (slept (GetSecret :: t1 ++ [PutItem trade_date a])
                 == slept t1)%Q).
    { intros a. cbn [slept fold_right].
      fold (slept (t1 ++ [PutItem trade_date a])).
      rewrite slept_app. cbn [slept fold_right]. lra. }
    set (s := slept t1) in *.
    destruct ((fetch_all w WATCHLIST).1) as [e|[[|first rest] failed]];
      cbv zeta; [| |destruct (put_item_error w)]; cbn [snd];
      (split; [rewrite ?Hloop, ?Hput; lra|]; split; [discriminate|];
       split; [intros _ _; rewrite ?Hloop, ?Hput; lra|]);
      intros k r f _ He; rewrite ?Hloop, ?Hput; try discriminate;
      exact (Hend _ _ He).
Qed.

Lemma run_sleeps_witness :
  (6 <= slept (main Sample.world_ok "2025-06-10"
                 "2025-06-10T21:00:05+00:00" ∅).2)%Q.
Proof.
  eapply (proj2 (proj2 (proj2 (proj2
            (run_sleeps Sample.world_ok "2025-06-10"
               "2025-06-10T21:00:05+00:00" ∅)))) "key").
  - reflexivity.
  - reflexivity.
Defined.

(** The run that stops at the division for MSFT has paused for two
    seconds. *)
Example text_day_slept :
  (slept (main Sample.world_text "2025-06-10" "2025-06-10T21:00:05+00:00"
            ∅).2 == 2)%Q.
Proof. reflexivity. Qed.
